(** * graphics/vnc/server/vnc_server.c: session life cycle of the VNC server

    A shallow embedding of [vnc_reset_session], [vnc_connect], [vnc_server]
    and [vnc_find_session].  The session structure is a record, the update
    pool is an array of link fields, the socket layer and the collaborators
    (negotiation, updater, receiver) answer from an environment script, and
    every call that leaves the file is logged as an event. *)

From Stdlib Require Import ZArith Lia Bool Ascii String.
From stdpp Require Import base numbers list strings.

Local Open Scope Z_scope.

(** ** Configuration and constants taken from headers *)

(** Build-time configuration.  vnc_server.h and nuttx/config.h are not part
    of the sources at hand, so their constants are parameters of the model:
    - [CONFIG_VNCSERVER_NUPDATES]: size of [updpool];
    - [RFB_MAX_DISPLAYS]: size of [g_vnc_sessions];
    - [RFB_DISPLAY_PORT]: the port macro;
    - [CONFIG_DEBUG]: whether [DEBUGASSERT] expands to [ASSERT] or to
      nothing.
    The pool has at least one descriptor: the code takes the address of
    [updpool[CONFIG_VNCSERVER_NUPDATES-1]]. *)
Record vnc_config := {
  CONFIG_VNCSERVER_NUPDATES : nat;
  RFB_MAX_DISPLAYS : Z;
  RFB_DISPLAY_PORT : Z -> Z;
  CONFIG_DEBUG : bool
}.

Definition OK : Z := 0.
Definition EXIT_FAILURE : Z := 1.
Definition ENOMEM : Z := 12.

(** Modelled from the spec: the state enumeration of vnc_server.h, which is
    not in src/.  The spec names UNINITIALIZED, INITIALIZED, CONNECTED and
    RUNNING, in this order; the code compares states with [>=]. *)
Inductive vnc_state :=
  | VNCSERVER_UNINITIALIZED
  | VNCSERVER_INITIALIZED
  | VNCSERVER_CONNECTED
  | VNCSERVER_RUNNING.

Definition state_rank (st : vnc_state) : Z :=
  match st with
  | VNCSERVER_UNINITIALIZED => 0
  | VNCSERVER_INITIALIZED => 1
  | VNCSERVER_CONNECTED => 2
  | VNCSERVER_RUNNING => 3
  end.

(** ** Data *)

(** A pointer to an update descriptor: [None] is NULL, [Some i] is
    [&session->updpool[i]]. *)
Abbreviation upd_ptr := (option nat).

(** A pointer returned by the allocator: [None] is NULL. *)
Abbreviation mem_ptr := (option nat).

(** [sq_queue_t] of queue.h. *)
Record sq_queue_t := { head : upd_ptr; tail : upd_ptr }.

(** [struct socket], reduced to whether it holds an open socket. *)
Record socket := { s_open : bool }.

(** [struct vnc_session_s].  A descriptor of [updpool] is represented by its
    [flink] field; its payload is not touched by this file. *)
Record vnc_session_s := {
  listen : socket;
  connect : socket;
  state : vnc_state;
  updfree : sq_queue_t;
  updqueue : sq_queue_t;
  updpool : list upd_ptr;
  freesem : Z;
  queuesem : Z;
  fb : mem_ptr
}.

(** What [kmm_zalloc (sizeof (struct vnc_session_s))] hands out. *)
Definition zeroed_session (n : nat) : vnc_session_s :=
  {| listen := {| s_open := false |};
     connect := {| s_open := false |};
     state := VNCSERVER_UNINITIALIZED;
     updfree := {| head := None; tail := None |};
     updqueue := {| head := None; tail := None |};
     updpool := replicate n None;
     freesem := 0;
     queuesem := 0;
     fb := None |}.

(** ** Events *)

Inductive sock_id := Listen | Connect.
Inductive sem_id := FreeSem | QueueSem | FbSem (display : Z).
Inductive alloc_id := AllocFb | AllocSession.

(** One event per call that leaves this file, in program order.
    [EvResetSession] marks the entry of [vnc_reset_session]; [EvRegister]
    is the store into [g_vnc_sessions]; [EvBind] carries the port number
    of the address that [psock_bind] is given. *)
Inductive event :=
  | EvAlloc (what : alloc_id) (p : mem_ptr)
  | EvFree (p : mem_ptr)
  | EvRegister (display : Z) (p : mem_ptr)
  | EvSemInit (s : sem_id) (v : Z)
  | EvSemReset (s : sem_id) (v : Z)
  | EvSemPost (s : sem_id)
  | EvResetSession
  | EvClose (s : sock_id)
  | EvSocket (r : Z)
  | EvBind (port r : Z)
  | EvListen (r : Z)
  | EvAccept (r : Z)
  | EvNegotiate (r : Z)
  | EvStartUpdater (r : Z)
  | EvReceiver (r : Z)
  | EvStopUpdater (r : Z).

(** ** Field updates *)

Definition set_listen (v : socket) (s : vnc_session_s) : vnc_session_s :=
  {| listen := v; connect := connect s; state := state s;
     updfree := updfree s; updqueue := updqueue s; updpool := updpool s;
     freesem := freesem s; queuesem := queuesem s; fb := fb s |}.

Definition set_connect (v : socket) (s : vnc_session_s) : vnc_session_s :=
  {| listen := listen s; connect := v; state := state s;
     updfree := updfree s; updqueue := updqueue s; updpool := updpool s;
     freesem := freesem s; queuesem := queuesem s; fb := fb s |}.

Definition set_state (v : vnc_state) (s : vnc_session_s) : vnc_session_s :=
  {| listen := listen s; connect := connect s; state := v;
     updfree := updfree s; updqueue := updqueue s; updpool := updpool s;
     freesem := freesem s; queuesem := queuesem s; fb := fb s |}.

Definition set_updfree (v : sq_queue_t) (s : vnc_session_s) : vnc_session_s :=
  {| listen := listen s; connect := connect s; state := state s;
     updfree := v; updqueue := updqueue s; updpool := updpool s;
     freesem := freesem s; queuesem := queuesem s; fb := fb s |}.

Definition set_updqueue (v : sq_queue_t) (s : vnc_session_s) : vnc_session_s :=
  {| listen := listen s; connect := connect s; state := state s;
     updfree := updfree s; updqueue := v; updpool := updpool s;
     freesem := freesem s; queuesem := queuesem s; fb := fb s |}.

Definition set_updpool (v : list upd_ptr) (s : vnc_session_s) : vnc_session_s :=
  {| listen := listen s; connect := connect s; state := state s;
     updfree := updfree s; updqueue := updqueue s; updpool := v;
     freesem := freesem s; queuesem := queuesem s; fb := fb s |}.

Definition set_freesem (v : Z) (s : vnc_session_s) : vnc_session_s :=
  {| listen := listen s; connect := connect s; state := state s;
     updfree := updfree s; updqueue := updqueue s; updpool := updpool s;
     freesem := v; queuesem := queuesem s; fb := fb s |}.

Definition set_queuesem (v : Z) (s : vnc_session_s) : vnc_session_s :=
  {| listen := listen s; connect := connect s; state := state s;
     updfree := updfree s; updqueue := updqueue s; updpool := updpool s;
     freesem := freesem s; queuesem := v; fb := fb s |}.

Definition set_fb (v : mem_ptr) (s : vnc_session_s) : vnc_session_s :=
  {| listen := listen s; connect := connect s; state := state s;
     updfree := updfree s; updqueue := updqueue s; updpool := updpool s;
     freesem := freesem s; queuesem := queuesem s; fb := v |}.

(** ** Library calls *)

(** [psock_close]: the socket is closed afterwards. *)
Definition psock_close (_ : socket) : socket := {| s_open := false |}.

(** [sq_init] of queue.h: an empty queue. *)
Definition sq_init : sq_queue_t := {| head := None; tail := None |}.

(** [sem_init (sem, 0, v)] and [sem_reset (sem, v)] leave the count at [v]
    when no thread waits on the semaphore; [sem_post] adds one. *)
Definition sem_init (v : Z) : Z := v.
Definition sem_reset (v : Z) : Z := v.
Definition sem_post (count : Z) : Z := count + 1.

(** [htons (port)] of arpa/inet.h takes a [uint16_t]: the [int] it is given
    is reduced modulo 2^16 before it is put in network byte order.  The
    model keeps the port number that the result denotes. *)
Definition htons (port : Z) : Z := port mod 2 ^ 16.

(** The indices visited by [for (i = lo; i < hi; i++)]. *)
Definition for_range (lo hi : nat) : list nat := seq lo (hi - lo).

(** ** vnc_reset_session *)

(** The body of the linking loop, iterated over the values of [i]:
    [curr = next; next = &updpool[i]; curr->flink = next].  The state of the
    loop is [next] and the pool. *)
Fixpoint link_loop (idx : list nat) (next : nat) (pool : list upd_ptr)
  : nat * list upd_ptr :=
  match idx with
  | [] => (next, pool)
  | i :: idx' =>
      let curr := next in
      let next := i in
      link_loop idx' next (<[curr := Some next]> pool)
  end.

Definition vnc_reset_session (cfg : vnc_config) (session : vnc_session_s)
    (fb : mem_ptr) : vnc_session_s * list event :=
  let n := CONFIG_VNCSERVER_NUPDATES cfg in
  (* Close any open sockets *)
  let '(session, closes) :=
    if state_rank VNCSERVER_CONNECTED <=? state_rank (state session) then
      let session := set_connect (psock_close (connect session)) session in
      let session := set_listen (psock_close (listen session)) session in
      (session, [EvClose Connect; EvClose Listen])
    else (session, []) in
  (* Put all of the pre-allocated update structures into the freelist *)
  let session := set_updqueue sq_init session in
  let session :=
    set_updfree {| head := Some 0%nat; tail := Some (n - 1)%nat |} session in
  let '(next, pool) :=
    link_loop (for_range 1 (n - 1)) 0%nat (updpool session) in
  let pool := <[next := None]> pool in
  let session := set_updpool pool session in
  (* Set the INITIALIZED state *)
  let session := set_freesem (sem_reset (Z.of_nat n)) session in
  let session := set_queuesem (sem_reset 0) session in
  let session := set_fb fb session in
  let session := set_state VNCSERVER_INITIALIZED session in
  (session,
   [EvResetSession] ++ closes ++
   [EvSemReset FreeSem (Z.of_nat n); EvSemReset QueueSem 0]).

(** Walk a queue from a pointer by following [flink], at most [fuel]
    descriptors: [Some l] lists the descriptors met before NULL, [None]
    means that NULL was not reached (a cycle, or a link outside the
    pool). *)
Fixpoint sq_chain (fuel : nat) (pool : list upd_ptr) (p : upd_ptr)
  : option (list nat) :=
  match p with
  | None => Some []
  | Some i =>
      match fuel with
      | O => None
      | S fuel' =>
          match pool !! i with
          | None => None
          | Some nx => cons i <$> sq_chain fuel' pool nx
          end
      end
  end.

(** The descriptors on the free list of a session with [n] descriptors. *)
Definition free_chain (n : nat) (s : vnc_session_s) : option (list nat) :=
  sq_chain (S n) (updpool s) (head (updfree s)).

(** The descriptors on the pending list. *)
Definition pending_chain (n : nat) (s : vnc_session_s) : option (list nat) :=
  sq_chain (S n) (updpool s) (head (updqueue s)).

(** The free list is a well-formed singly linked list that holds exactly
    the [n] descriptors of the pool, and [tail] is its last element. *)
Definition free_list_complete (n : nat) (s : vnc_session_s) : Prop :=
  exists l, free_chain n s = Some l /\ l ≡ₚ seq 0 n /\
            tail (updfree s) = last l.

(** ** The environment *)

(** What a call into the socket layer answers: the returned value and the
    value [get_errno ()] gives afterwards. *)
Record sys_result := { sr_ret : Z; sr_errno : Z }.

Definition get_errno (r : sys_result) : Z := sr_errno r.

(** What a collaborator of vnc_server.h answers: the returned value and
    what the call did to the session structure it was given. *)
Record collab_result := {
  cr_ret : Z;
  cr_effect : vnc_session_s -> vnc_session_s
}.

(** The answers of the environment during one pass of the server loop.  A
    pass only consults the answers of the calls it reaches. *)
Record cycle_env := {
  env_socket : sys_result;
  env_bind : sys_result;
  env_listen : sys_result;
  env_accept : sys_result;
  env_negotiate : collab_result;
  env_start_updater : collab_result;
  env_receiver : collab_result;
  env_stop_updater : collab_result
}.

(** The answers of [kmm_zalloc] at start-up. *)
Record alloc_env := { alloc_fb : mem_ptr; alloc_session : mem_ptr }.

(** The globals: [g_vnc_sessions] and the counts of [g_fbsem]. *)
Record globals := { g_vnc_sessions : list mem_ptr; g_fbsem : list Z }.

Definition set_g_vnc_sessions (v : list mem_ptr) (g : globals) : globals :=
  {| g_vnc_sessions := v; g_fbsem := g_fbsem g |}.

Definition set_g_fbsem (v : list Z) (g : globals) : globals :=
  {| g_vnc_sessions := g_vnc_sessions g; g_fbsem := v |}.

(** ** vnc_connect *)

(** The [errout_with_listener] label. *)
Definition errout_with_listener (ret : Z) (session : vnc_session_s)
    (evs : list event) : Z * vnc_session_s * list event :=
  let session := set_listen (psock_close (listen session)) session in
  (ret, session, evs ++ [EvClose Listen]).

Definition vnc_connect (env : cycle_env) (session : vnc_session_s) (port : Z)
  : Z * vnc_session_s * list event :=
  (* Create a listening socket *)
  let ret := sr_ret (env_socket env) in
  let evs := [EvSocket ret] in
  if ret <? 0 then
    let ret := - get_errno (env_socket env) in
    (ret, session, evs)
  else
  let session := set_listen {| s_open := true |} session in
  (* Bind the listening socket to a local address *)
  let ret := sr_ret (env_bind env) in
  let evs := evs ++ [EvBind (htons port) ret] in
  if ret <? 0 then
    let ret := - get_errno (env_bind env) in
    errout_with_listener ret session evs
  else
  (* Listen for a connection *)
  let ret := sr_ret (env_listen env) in
  let evs := evs ++ [EvListen ret] in
  if ret <? 0 then
    let ret := - get_errno (env_listen env) in
    errout_with_listener ret session evs
  else
  (* Connect to the client *)
  let ret := sr_ret (env_accept env) in
  let evs := evs ++ [EvAccept ret] in
  if ret <? 0 then
    let ret := - get_errno (env_accept env) in
    errout_with_listener ret session evs
  else
  let session := set_connect {| s_open := true |} session in
  let session := set_state VNCSERVER_CONNECTED session in
  (OK, session, evs).

(** ** vnc_server *)

(** [DEBUGASSERT (c)]: [true] when execution goes on. *)
Definition DEBUGASSERT (cfg : vnc_config) (c : bool) : bool :=
  if CONFIG_DEBUG cfg then c else true.

(** One pass of the body of [for (; ; )].  Each [continue] ends the pass. *)
Definition vnc_server_cycle (cfg : vnc_config) (display : Z) (fb : mem_ptr)
    (env : cycle_env) (st : vnc_session_s * globals)
  : vnc_session_s * globals * list event :=
  let '(session, g) := st in
  (* Release the last session and [re-]initialize the session structure *)
  let '(session, ev_reset) := vnc_reset_session cfg session fb in
  let g := set_g_fbsem (<[Z.to_nat display := sem_reset 0]> (g_fbsem g)) g in
  let evs := ev_reset ++ [EvSemReset (FbSem display) 0] in
  (* Establish a connection with the VNC client *)
  let '(ret, session, ev_connect) :=
    vnc_connect env session (RFB_DISPLAY_PORT cfg display) in
  let evs := evs ++ ev_connect in
  if 0 <=? ret then
    (* Negotiate security, framebuffer and color properties *)
    let ret := cr_ret (env_negotiate env) in
    let session := cr_effect (env_negotiate env) session in
    let evs := evs ++ [EvNegotiate ret] in
    if ret <? 0 then (session, g, evs)
    else
    (* Start the VNC updater thread *)
    let ret := cr_ret (env_start_updater env) in
    let session := cr_effect (env_start_updater env) session in
    let evs := evs ++ [EvStartUpdater ret] in
    if ret <? 0 then (session, g, evs)
    else
    (* Let the framebuffer driver know that we are ready *)
    let g := set_g_fbsem (alter sem_post (Z.to_nat display) (g_fbsem g)) g in
    let evs := evs ++ [EvSemPost (FbSem display)] in
    (* Run the VNC receiver on this thread *)
    let ret := cr_ret (env_receiver env) in
    let session := cr_effect (env_receiver env) session in
    let evs := evs ++ [EvReceiver ret] in
    (* Stop the VNC updater thread *)
    let ret := cr_ret (env_stop_updater env) in
    let session := cr_effect (env_stop_updater env) session in
    let evs := evs ++ [EvStopUpdater ret] in
    (session, g, evs)
  else (session, g, evs).

(** The loop, run for as many passes as the environment script has
    entries.  The body has no [break] and no [return]: a pass always hands
    over to the next one. *)
Fixpoint vnc_server_loop (cfg : vnc_config) (display : Z) (fb : mem_ptr)
    (script : list cycle_env) (st : vnc_session_s * globals)
  : vnc_session_s * globals * list event :=
  match script with
  | [] => (st, [])
  | env :: script' =>
      let '(session, g, evs) := vnc_server_cycle cfg display fb env st in
      let '(session', g', evs') :=
        vnc_server_loop cfg display fb script' (session, g) in
      (session', g', evs ++ evs')
  end.

(** How a run of [vnc_server] ends: the entry assertion failed, the
    function returned, or it is still in its loop when the script is used
    up. *)
Inductive outcome :=
  | Asserted
  | Returned (r : Z)
  | Serving (session : vnc_session_s).

(** [vnc_server (argc, argv)].  [atoi] is the C library's, [session0] is
    the content of the local variable [session] at entry, which the
    function reads before it has assigned it. *)
Definition vnc_server (cfg : vnc_config) (atoi : string -> Z)
    (session0 : mem_ptr) (mem : alloc_env) (script : list cycle_env)
    (argc : Z) (argv : list string) (g : globals)
  : outcome * globals * list event :=
  let session := session0 in
  if negb (DEBUGASSERT cfg (bool_decide (session <> None))) then
    (Asserted, g, [])
  else
  (* A single argument is expected: a display port number in ASCII form *)
  if negb (argc =? 2) then (Returned EXIT_FAILURE, g, [])
  else
  let display := atoi (nth 1 argv EmptyString) in
  if (display <? 0) || (RFB_MAX_DISPLAYS cfg <=? display) then
    (Returned EXIT_FAILURE, g, [])
  else
  (* Allocate the framebuffer memory *)
  let fb := alloc_fb mem in
  let evs := [EvAlloc AllocFb fb] in
  if bool_decide (fb = None) then (Returned (- ENOMEM), g, evs)
  else
  (* Allocate a session structure for this display *)
  let session := alloc_session mem in
  let evs := evs ++ [EvAlloc AllocSession session] in
  if bool_decide (session = None) then
    (* errout_with_fb *)
    (Returned EXIT_FAILURE, g, evs ++ [EvFree fb])
  else
  let content := zeroed_session (CONFIG_VNCSERVER_NUPDATES cfg) in
  let g :=
    set_g_vnc_sessions (<[Z.to_nat display := session]> (g_vnc_sessions g)) g in
  let evs := evs ++ [EvRegister display session] in
  let content :=
    set_freesem (sem_init (Z.of_nat (CONFIG_VNCSERVER_NUPDATES cfg))) content in
  let content := set_queuesem (sem_init 0) content in
  let evs :=
    evs ++ [EvSemInit FreeSem (Z.of_nat (CONFIG_VNCSERVER_NUPDATES cfg));
            EvSemInit QueueSem 0] in
  (* Loop... handling each VNC client connection to this display *)
  let '(content, g, ev_loop) :=
    vnc_server_loop cfg display fb script (content, g) in
  (Serving content, g, evs ++ ev_loop).

(** ** vnc_find_session *)

Inductive lookup_outcome :=
  | LookupAsserted
  | LookupReturned (session : mem_ptr).

(** [g_vnc_sessions[display]]. *)
Definition registry_entry (g : globals) (display : Z) : mem_ptr :=
  default None (g_vnc_sessions g !! Z.to_nat display).

Definition vnc_find_session (cfg : vnc_config) (display : Z) (g : globals)
  : lookup_outcome * globals :=
  let session : mem_ptr := None in
  let in_range := (0 <=? display) && (display <? RFB_MAX_DISPLAYS cfg) in
  if negb (DEBUGASSERT cfg in_range) then (LookupAsserted, g)
  else
  let session := if in_range then registry_entry g display else session in
  (LookupReturned session, g).

(** ** atoi *)

Definition isspace (c : ascii) : bool :=
  let n := nat_of_ascii c in
  (n =? 32)%nat || ((9 <=? n)%nat && (n <=? 13)%nat).

Definition isdigit (c : ascii) : bool :=
  let n := nat_of_ascii c in (48 <=? n)%nat && (n <=? 57)%nat.

Fixpoint skip_space (s : string) : string :=
  match s with
  | String c s' => if isspace c then skip_space s' else s
  | EmptyString => s
  end.

Fixpoint digits_value (acc : Z) (s : string) : Z :=
  match s with
  | String c s' =>
      if isdigit c then digits_value (acc * 10 + (Z.of_nat (nat_of_ascii c) - 48)) s'
      else acc
  | EmptyString => acc
  end.

(** Reduce to the range of a 32-bit [int]. *)
Definition to_int (z : Z) : Z := (z + 2 ^ 31) mod 2 ^ 32 - 2 ^ 31.

(** [atoi] as the C library has it, [(int) strtol (nptr, NULL, 10)]: white
    space is skipped, an optional sign is read, then decimal digits up to
    the first other character; without a digit the value is 0.  The C
    library is not part of the sources at hand: [vnc_server] takes its
    [atoi] as a parameter, and this one is there to run it. *)
Definition libc_atoi (s : string) : Z :=
  match skip_space s with
  | String "-"%char s' => to_int (- digits_value 0 s')
  | String "+"%char s' => to_int (digits_value 0 s')
  | s' => to_int (digits_value 0 s')
  end.

(** ** Sample inputs *)

(** A configuration with [n] update descriptors and one display. *)
Definition sample_config (n : nat) (debug : bool) : vnc_config :=
  {| CONFIG_VNCSERVER_NUPDATES := n;
     RFB_MAX_DISPLAYS := 1;
     RFB_DISPLAY_PORT := fun d => 5900 + d;
     CONFIG_DEBUG := debug |}.

Definition sys_ok : sys_result := {| sr_ret := 0; sr_errno := 0 |}.
Definition sys_fail (e : Z) : sys_result := {| sr_ret := -1; sr_errno := e |}.

(** A collaborator that returns [r] and leaves the session as it is. *)
Definition collab_ret (r : Z) : collab_result :=
  {| cr_ret := r; cr_effect := fun s => s |}.

(** Every call succeeds. *)
Definition env_all_ok : cycle_env :=
  {| env_socket := sys_ok; env_bind := sys_ok; env_listen := sys_ok;
     env_accept := sys_ok; env_negotiate := collab_ret 0;
     env_start_updater := collab_ret 0; env_receiver := collab_ret 0;
     env_stop_updater := collab_ret 0 |}.

(** [psock_bind] fails with EADDRINUSE. *)
Definition env_bind_fails : cycle_env :=
  {| env_socket := sys_ok; env_bind := sys_fail 98; env_listen := sys_ok;
     env_accept := sys_ok; env_negotiate := collab_ret 0;
     env_start_updater := collab_ret 0; env_receiver := collab_ret 0;
     env_stop_updater := collab_ret 0 |}.

(** The client connects and [vnc_negotiate] fails. *)
Definition env_negotiate_fails : cycle_env :=
  {| env_socket := sys_ok; env_bind := sys_ok; env_listen := sys_ok;
     env_accept := sys_ok; env_negotiate := collab_ret (-1);
     env_start_updater := collab_ret 0; env_receiver := collab_ret 0;
     env_stop_updater := collab_ret 0 |}.

(** Both allocations succeed. *)
Definition mem_ok : alloc_env :=
  {| alloc_fb := Some 1%nat; alloc_session := Some 2%nat |}.

(** The globals before any server has started, for one display. *)
Definition globals_at_boot : globals :=
  {| g_vnc_sessions := [None]; g_fbsem := [0] |}.

(** ** Auxiliary definitions for the statements *)

(** The events a reset can log. *)
Definition reset_event (e : event) : bool :=
  match e with
  | EvResetSession | EvClose _ => true
  | EvSemReset FreeSem _ | EvSemReset QueueSem _ => true
  | _ => false
  end.

(** The events [vnc_connect] can log. *)
Definition connect_event (e : event) : bool :=
  match e with
  | EvSocket _ | EvBind _ _ | EvListen _ | EvAccept _ | EvClose Listen => true
  | _ => false
  end.

(** The events after [vnc_connect] has returned [ret]. *)
Definition after_connect (display : Z) (env : cycle_env) (ret : Z)
  : list event :=
  if 0 <=? ret then
    EvNegotiate (cr_ret (env_negotiate env)) ::
    if cr_ret (env_negotiate env) <? 0 then []
    else
      EvStartUpdater (cr_ret (env_start_updater env)) ::
      if cr_ret (env_start_updater env) <? 0 then []
      else [EvSemPost (FbSem display);
            EvReceiver (cr_ret (env_receiver env));
            EvStopUpdater (cr_ret (env_stop_updater env))]
  else [].

(** The session that [vnc_connect] is called with in a pass. *)
Definition session_at_connect (cfg : vnc_config) (fb0 : mem_ptr)
    (s : vnc_session_s) : vnc_session_s :=
  (vnc_reset_session cfg s fb0).1.

(** How [vnc_connect] leaves through [errout_with_listener] with the errno
    [e]: the result [r] is [-e], negative, the listening socket has been
    closed as the last action, and state and connected socket are those of
    the session [s] at entry. *)
Definition left_with_listener_closed (s : vnc_session_s)
    (r : Z * vnc_session_s * list event) (e : Z) : Prop :=
  r.1.1 = - e /\ r.1.1 < 0 /\
  s_open (listen r.1.2) = false /\
  (exists evs, r.2 = evs ++ [EvClose Listen]) /\
  state r.1.2 = state s /\
  connect r.1.2 = connect s.

(** The events of start-up: allocation, release, registration and
    semaphore initialisation. *)
Definition startup_event (e : event) : bool :=
  match e with
  | EvAlloc _ _ | EvFree _ | EvRegister _ _ | EvSemInit _ _ => true
  | _ => false
  end.

(** [CONFIG_DEBUG] replaced in a configuration. *)
Definition set_debug (b : bool) (cfg : vnc_config) : vnc_config :=
  {| CONFIG_VNCSERVER_NUPDATES := CONFIG_VNCSERVER_NUPDATES cfg;
     RFB_MAX_DISPLAYS := RFB_MAX_DISPLAYS cfg;
     RFB_DISPLAY_PORT := RFB_DISPLAY_PORT cfg;
     CONFIG_DEBUG := b |}.

(** The session structure when the loop is entered. *)
Definition session_at_loop_entry (cfg : vnc_config) : vnc_session_s :=
  set_queuesem (sem_init 0)
    (set_freesem (sem_init (Z.of_nat (CONFIG_VNCSERVER_NUPDATES cfg)))
       (zeroed_session (CONFIG_VNCSERVER_NUPDATES cfg))).

(** A string without a number at its start: after white space and an
    optional sign the next character is not a digit. *)
Definition non_numeric (s : string) : bool :=
  let first_is_digit (t : string) :=
    match t with String c _ => isdigit c | EmptyString => false end in
  match skip_space s with
  | String "-"%char s' => negb (first_is_digit s')
  | String "+"%char s' => negb (first_is_digit s')
  | s' => negb (first_is_digit s')
  end.

(** Both sockets of the session are closed. *)
Definition sockets_closed (s : vnc_session_s) : Prop :=
  s_open (listen s) = false /\ s_open (connect s) = false.

(** A session whose state is below CONNECTED holds no open socket. *)
Definition no_socket_below_connected (s : vnc_session_s) : Prop :=
  state_rank (state s) < state_rank VNCSERVER_CONNECTED -> sockets_closed s.

(** A collaborator that does not take a session back below CONNECTED. *)
Definition keeps_connected (c : collab_result) : Prop :=
  forall s,
    state_rank VNCSERVER_CONNECTED <= state_rank (state s) ->
    state_rank VNCSERVER_CONNECTED <= state_rank (state (cr_effect c s)).

Definition collaborators_keep_connected (env : cycle_env) : Prop :=
  keeps_connected (env_negotiate env) /\
  keeps_connected (env_start_updater env) /\
  keeps_connected (env_receiver env) /\
  keeps_connected (env_stop_updater env).

(** The four socket calls of [vnc_connect] all succeed. *)
Definition all_calls_succeed (env : cycle_env) : Prop :=
  0 <= sr_ret (env_socket env) /\ 0 <= sr_ret (env_bind env) /\
  0 <= sr_ret (env_listen env) /\ 0 <= sr_ret (env_accept env).

(** A socket call that fails leaves a positive errno. *)
Definition errno_positive (env : cycle_env) : Prop :=
  forall c,
    c ∈ [env_socket env; env_bind env; env_listen env; env_accept env] ->
    sr_ret c < 0 -> 0 < get_errno c.

(** The pool as [vnc_reset_session] leaves it: the linking loop, then
    [next->flink = NULL]. *)
Definition reset_pool (n : nat) (pool : list upd_ptr) : list upd_ptr :=
  let r := link_loop (for_range 1 (n - 1)) 0%nat pool in
  <[r.1 := None]> r.2.


(** * Properties *)

(** ** The free list built by vnc_reset_session *)

Section FreeList.

Implicit Types pool : list upd_ptr.

(** The linking loop started at descriptor [a] for the indices
    [a+1 .. a+k] leaves [next] at [a+k], links every descriptor from [a]
    to [a+k-1] to its successor and writes nothing else. *)
Lemma link_loop_seq (k : nat) :
  forall (a : nat) pool,
    (a + k <= length pool)%nat ->
    (link_loop (seq (S a) k) a pool).1 = (a + k)%nat /\
    length (link_loop (seq (S a) k) a pool).2 = length pool /\
    (forall j, (a <= j < a + k)%nat ->
       (link_loop (seq (S a) k) a pool).2 !! j = Some (Some (S j))) /\
    (forall j, (j < a \/ a + k <= j)%nat ->
       (link_loop (seq (S a) k) a pool).2 !! j = pool !! j).
Proof.
  induction k as [|k IH]; intros a pool Hlen; simpl.
  - split; [lia|]. split; [done|]. split; [intros; lia | done].
  - destruct (IH (S a) (<[a := Some (S a)]> pool)) as (Hn & Hl & Hin & Hout).
    { rewrite length_insert. lia. }
    rewrite length_insert in Hl.
    split; [|split; [|split]].
    + rewrite Hn. lia.
    + exact Hl.
    + intros j Hj. destruct (decide (j = a)) as [->|Hne].
      * rewrite Hout by lia. apply list_lookup_insert_eq. lia.
      * apply Hin. lia.
    + intros j Hj. rewrite Hout by lia.
      apply list_lookup_insert_ne. lia.
Qed.

Lemma sq_chain_null (fuel : nat) pool : sq_chain fuel pool None = Some [].
Proof. by destruct fuel. Qed.

(** A run of [m] links that ends in NULL is walked in order. *)
Lemma sq_chain_linked (m : nat) :
  forall (a fuel : nat) pool,
    (forall j, (a <= j < a + m)%nat -> pool !! j = Some (Some (S j))) ->
    pool !! (a + m)%nat = Some None ->
    (m < fuel)%nat ->
    sq_chain fuel pool (Some a) = Some (seq a (S m)).
Proof.
  induction m as [|m IH]; intros a fuel pool Hlink Hend Hfuel.
  - destruct fuel as [|fuel]; [lia|]. simpl.
    replace (a + 0)%nat with a in Hend by lia.
    by rewrite Hend, sq_chain_null.
  - destruct fuel as [|fuel]; [lia|].
    change (sq_chain (S fuel) pool (Some a)) with
      (match pool !! a with
       | None => None
       | Some nx => cons a <$> sq_chain fuel pool nx
       end).
    rewrite (Hlink a) by lia.
    rewrite (IH (S a) fuel pool); [done | | | lia].
    + intros j Hj. apply Hlink. lia.
    + replace (S a + m)%nat with (a + S m)%nat by lia. exact Hend.
Qed.

(** The pool after the loop and the final [next->flink = NULL], for a
    pool of at least two descriptors. *)
Lemma reset_pool_links (n : nat) pool :
  (2 <= n)%nat -> length pool = n ->
  let r := link_loop (for_range 1 (n - 1)) 0%nat pool in
  let pool' := <[r.1 := None]> r.2 in
  r.1 = (n - 2)%nat /\
  (forall j, (j < n - 2)%nat -> pool' !! j = Some (Some (S j))) /\
  pool' !! (n - 2)%nat = Some None /\
  pool' !! (n - 1)%nat = pool !! (n - 1)%nat.
Proof.
  intros Hn Hlen r pool'. subst r pool'. unfold for_range.
  destruct (link_loop_seq (n - 1 - 1) 0%nat pool) as (Hnext & Hl & Hin & Hout);
    [lia|].
  simpl in Hnext. rewrite Hnext.
  replace (n - 1 - 1)%nat with (n - 2)%nat in * by lia.
  split; [done|]. split; [|split].
  - intros j Hj. rewrite list_lookup_insert_ne by lia. apply Hin. lia.
  - apply list_lookup_insert_eq. lia.
  - rewrite list_lookup_insert_ne by lia. apply Hout. lia.
Qed.

End FreeList.

(** The session after [vnc_reset_session], field by field. *)
Lemma vnc_reset_session_fields (cfg : vnc_config) (s : vnc_session_s)
    (fb0 : mem_ptr) :
  let n := CONFIG_VNCSERVER_NUPDATES cfg in
  let s' := (vnc_reset_session cfg s fb0).1 in
  let r := link_loop (for_range 1 (n - 1)) 0%nat (updpool s) in
  state s' = VNCSERVER_INITIALIZED /\
  fb s' = fb0 /\
  freesem s' = Z.of_nat n /\
  queuesem s' = 0 /\
  updqueue s' = {| head := None; tail := None |} /\
  updfree s' = {| head := Some 0%nat; tail := Some (n - 1)%nat |} /\
  updpool s' = <[r.1 := None]> r.2.
Proof.
  intros n s' r. subst n s' r. unfold vnc_reset_session.
  destruct (state_rank VNCSERVER_CONNECTED <=? state_rank (state s));
    simpl;
    destruct (link_loop _ _ _) as [next pool]; simpl; repeat split.
Qed.

(** After a reset the pending list is empty and the two counters hold [N]
    and [0], whatever the session was before. *)
Lemma vnc_reset_session_counters (cfg : vnc_config) (s : vnc_session_s)
    (fb0 : mem_ptr) :
  let n := CONFIG_VNCSERVER_NUPDATES cfg in
  let s' := (vnc_reset_session cfg s fb0).1 in
  pending_chain n s' = Some [] /\
  freesem s' = Z.of_nat n /\
  queuesem s' = 0.
Proof.
  intros n s'. subst n s'.
  destruct (vnc_reset_session_fields cfg s fb0)
    as (_ & _ & Hf & Hq & Hpend & _).
  split; [|split; [exact Hf|exact Hq]].
  unfold pending_chain. by rewrite Hpend.
Qed.

(** C1, the behaviour of the code: with a pool of [N >= 2] descriptors
    [vnc_reset_session] empties the pending list and sets the counters to
    [N] and [0], but the chain that starts at [updfree.head] holds only the
    descriptors [0 .. N-2]: the loop stops one index early, so
    [updpool[N-1]], to which [updfree.tail] points, is not on the chain and
    the free list does not hold all [N] descriptors. *)
Theorem vnc_reset_session_drops_last_descriptor (cfg : vnc_config)
    (s : vnc_session_s) (fb0 : mem_ptr) :
  let n := CONFIG_VNCSERVER_NUPDATES cfg in
  let s' := (vnc_reset_session cfg s fb0).1 in
  (2 <= n)%nat ->
  length (updpool s) = n ->
  pending_chain n s' = Some [] /\
  freesem s' = Z.of_nat n /\
  queuesem s' = 0 /\
  free_chain n s' = Some (seq 0 (n - 1)) /\
  tail (updfree s') = Some (n - 1)%nat /\
  ((n - 1)%nat ∉ seq 0 (n - 1)) /\
  ~ free_list_complete n s'.
Proof.
  intros n s' Hn Hlen.
  destruct (vnc_reset_session_counters cfg s fb0) as (Hp & Hf & Hq).
  destruct (vnc_reset_session_fields cfg s fb0)
    as (_ & _ & _ & _ & _ & Hfree & Hpool).
  destruct (reset_pool_links n (updpool s) Hn Hlen) as (_ & Hin & Hend & _).
  subst n s'.
  set (n := CONFIG_VNCSERVER_NUPDATES cfg) in *.
  set (s' := (vnc_reset_session cfg s fb0).1) in *.
  assert (Hchain : free_chain n s' = Some (seq 0 (n - 1))).
  { unfold free_chain. rewrite Hfree, Hpool. cbn [head].
    rewrite (sq_chain_linked (n - 2) 0%nat (S n));
      [f_equal; f_equal; lia | intros j Hj; apply Hin; lia | exact Hend | lia]. }
  split; [exact Hp|]. split; [exact Hf|]. split; [exact Hq|].
  split; [exact Hchain|]. split; [by rewrite Hfree|]. split.
  - rewrite elem_of_seq. lia.
  - intros (l & Hl & Hperm & _). rewrite Hchain in Hl.
    injection Hl as <-. apply Permutation_length in Hperm.
    rewrite !length_seq in Hperm. lia.
Qed.

(** The theorem at three descriptors, from a pool whose links form a
    cycle: the free chain is [0; 1] and the tail is descriptor 2. *)
Lemma vnc_reset_session_drops_last_descriptor_witness :
  let s0 := set_updpool [Some 2; Some 0; Some 1]%nat (zeroed_session 3) in
  let s' := (vnc_reset_session (sample_config 3 false) s0 None).1 in
  free_chain 3 s' = Some [0; 1]%nat /\
  tail (updfree s') = Some 2%nat /\
  ~ free_list_complete 3 s'.
Proof.
  destruct (vnc_reset_session_drops_last_descriptor (sample_config 3 false)
              (set_updpool [Some 2; Some 0; Some 1]%nat (zeroed_session 3))
              None) as (_ & _ & _ & Hchain & Htail & _ & Hnot).
  - simpl. lia.
  - reflexivity.
  - split; [exact Hchain|]. split; [exact Htail|exact Hnot].
Defined.

(** The code at two descriptors, from a zeroed session: only descriptor 0
    is on the free chain, the tail is descriptor 1, the counter says 2. *)
Lemma vnc_reset_session_two_descriptors :
  let s' :=
    (vnc_reset_session (sample_config 2 false) (zeroed_session 2) None).1 in
  free_chain 2 s' = Some [0%nat] /\
  tail (updfree s') = Some 1%nat /\
  freesem s' = 2.
Proof. by repeat split. Qed.

(** With a single descriptor the free list is complete. *)
Lemma vnc_reset_session_single_descriptor (s : vnc_session_s) (fb0 : mem_ptr) :
  length (updpool s) = 1%nat ->
  free_list_complete 1 (vnc_reset_session (sample_config 1 false) s fb0).1.
Proof.
  intros Hlen.
  destruct (vnc_reset_session_fields (sample_config 1 false) s fb0)
    as (_ & _ & _ & _ & _ & Hfree & Hpool).
  destruct (updpool s) as [|d [|? ?]]; try discriminate.
  exists [0%nat]. unfold free_chain. rewrite Hfree, Hpool. by repeat split.
Qed.

(** ** Splitting a trace at an event *)

Section Splits.

Context {A : Type} (P : A -> Prop).

(** An occurrence of a [P] event in [pre ++ rest] lies in [rest] when
    [pre] has no [P] event. *)
Lemma split_past_prefix (pre rest l1 l2 : list A) (e : A) :
  Forall (fun x => ~ P x) pre -> P e ->
  pre ++ rest = l1 ++ e :: l2 ->
  exists l1', l1 = pre ++ l1' /\ rest = l1' ++ e :: l2.
Proof.
  revert l1. induction pre as [|a pre IH]; intros l1 Hpre He Heq.
  - by exists l1.
  - apply Forall_cons in Hpre as [Ha Hpre].
    destruct l1 as [|y l1]; simpl in Heq; injection Heq as -> Heq.
    + contradiction.
    + destruct (IH l1 Hpre He Heq) as (l1' & -> & ->). by exists l1'.
Qed.

(** A trace with a single [P] event splits at it in one way only. *)
Lemma split_unique (pre post l1 l2 : list A) (x e : A) :
  Forall (fun x => ~ P x) pre -> Forall (fun x => ~ P x) post -> P e ->
  pre ++ x :: post = l1 ++ e :: l2 ->
  l1 = pre /\ e = x /\ l2 = post.
Proof.
  intros Hpre Hpost He Heq.
  destruct (split_past_prefix pre (x :: post) l1 l2 e Hpre He Heq)
    as (l1' & -> & Heq').
  destruct l1' as [|y l1']; simpl in Heq'; injection Heq' as -> Heq'.
  - by rewrite app_nil_r.
  - subst post. apply Forall_app in Hpost as [_ Hpost].
    apply Forall_cons in Hpost as [Hne _]. contradiction.
Qed.

(** A trace without [P] events does not split at one. *)
Lemma split_absent (l l1 l2 : list A) (e : A) :
  Forall (fun x => ~ P x) l -> P e -> l <> l1 ++ e :: l2.
Proof.
  intros Hl He ->. apply Forall_app in Hl as [_ Hl].
  apply Forall_cons in Hl as [Hne _]. contradiction.
Qed.

End Splits.

(** ** Traces of vnc_reset_session and vnc_connect *)

Lemma vnc_reset_session_trace (cfg : vnc_config) (s : vnc_session_s)
    (fb0 : mem_ptr) :
  (vnc_reset_session cfg s fb0).2 =
    [EvResetSession] ++
    (if state_rank VNCSERVER_CONNECTED <=? state_rank (state s)
     then [EvClose Connect; EvClose Listen] else []) ++
    [EvSemReset FreeSem (Z.of_nat (CONFIG_VNCSERVER_NUPDATES cfg));
     EvSemReset QueueSem 0].
Proof.
  unfold vnc_reset_session.
  destruct (state_rank VNCSERVER_CONNECTED <=? state_rank (state s));
    simpl; by destruct (link_loop _ _ _).
Qed.

Lemma vnc_reset_session_events (cfg : vnc_config) (s : vnc_session_s)
    (fb0 : mem_ptr) :
  Forall (fun e => reset_event e = true) (vnc_reset_session cfg s fb0).2.
Proof.
  rewrite vnc_reset_session_trace.
  destruct (state_rank VNCSERVER_CONNECTED <=? state_rank (state s));
    repeat constructor.
Qed.

Lemma vnc_connect_events (env : cycle_env) (s : vnc_session_s) (port : Z) :
  Forall (fun e => connect_event e = true) (vnc_connect env s port).2.
Proof.
  unfold vnc_connect, errout_with_listener.
  repeat (match goal with |- context [if ?c then _ else _] => destruct c end);
    simpl; repeat constructor.
Qed.

(** Sockets and state after a reset: both sockets are closed when the state
    was at least CONNECTED, and untouched otherwise. *)
Lemma vnc_reset_session_sockets (cfg : vnc_config) (s : vnc_session_s)
    (fb0 : mem_ptr) :
  let s' := (vnc_reset_session cfg s fb0).1 in
  if state_rank VNCSERVER_CONNECTED <=? state_rank (state s)
  then s_open (listen s') = false /\ s_open (connect s') = false
  else listen s' = listen s /\ connect s' = connect s.
Proof.
  unfold vnc_reset_session.
  destruct (state_rank VNCSERVER_CONNECTED <=? state_rank (state s));
    simpl; by destruct (link_loop _ _ _).
Qed.

(** ** The trace of one pass of the server loop *)

Lemma vnc_server_cycle_trace (cfg : vnc_config) (display : Z) (fb0 : mem_ptr)
    (env : cycle_env) (s : vnc_session_s) (g : globals) :
  let c := vnc_connect env (session_at_connect cfg fb0 s)
             (RFB_DISPLAY_PORT cfg display) in
  (vnc_server_cycle cfg display fb0 env (s, g)).2 =
    ((vnc_reset_session cfg s fb0).2 ++ [EvSemReset (FbSem display) 0]) ++
    c.2 ++ after_connect display env c.1.1.
Proof.
  unfold vnc_server_cycle, after_connect, session_at_connect.
  destruct (vnc_reset_session cfg s fb0) as [s1 ev1]. simpl.
  destruct (vnc_connect env s1 (RFB_DISPLAY_PORT cfg display))
    as [[ret s2] ev2]. simpl.
  destruct (0 <=? ret); [|by rewrite app_nil_r].
  destruct (cr_ret (env_negotiate env) <? 0); simpl.
  { by rewrite <- !app_assoc. }
  destruct (cr_ret (env_start_updater env) <? 0); simpl;
    by rewrite <- !app_assoc.
Qed.

(** The events of a pass up to the return of [vnc_connect] come from the
    reset, from the clearing of [g_fbsem[display]] or from [vnc_connect]. *)
Lemma pass_prefix_events (cfg : vnc_config) (display : Z) (fb0 : mem_ptr)
    (env : cycle_env) (s : vnc_session_s) :
  Forall (fun e => reset_event e = true \/ connect_event e = true \/
                   e = EvSemReset (FbSem display) 0)
    (((vnc_reset_session cfg s fb0).2 ++ [EvSemReset (FbSem display) 0]) ++
     (vnc_connect env (session_at_connect cfg fb0 s)
        (RFB_DISPLAY_PORT cfg display)).2).
Proof.
  rewrite !Forall_app. split; [split|].
  - eapply Forall_impl; [apply vnc_reset_session_events|]. simpl. tauto.
  - apply Forall_singleton. by right; right.
  - eapply Forall_impl; [apply vnc_connect_events|]. simpl. tauto.
Qed.

(** The globals after a pass: [g_fbsem[display]] has been reset to 0, and
    posted once if the updater was started. *)
Lemma vnc_server_cycle_globals (cfg : vnc_config) (display : Z)
    (fb0 : mem_ptr) (env : cycle_env) (s : vnc_session_s) (g : globals) :
  let c := vnc_connect env (session_at_connect cfg fb0 s)
             (RFB_DISPLAY_PORT cfg display) in
  let cleared := <[Z.to_nat display := 0]> (g_fbsem g) in
  (vnc_server_cycle cfg display fb0 env (s, g)).1.2 =
    set_g_fbsem
      (if (0 <=? c.1.1) && negb (cr_ret (env_negotiate env) <? 0) &&
          negb (cr_ret (env_start_updater env) <? 0)
       then alter sem_post (Z.to_nat display) cleared else cleared) g.
Proof.
  unfold vnc_server_cycle, session_at_connect.
  destruct (vnc_reset_session cfg s fb0) as [s1 ev1]. simpl.
  destruct (vnc_connect env s1 (RFB_DISPLAY_PORT cfg display))
    as [[ret s2] ev2]. simpl.
  destruct (0 <=? ret); [|done].
  destruct (cr_ret (env_negotiate env) <? 0); [done|].
  by destruct (cr_ret (env_start_updater env) <? 0).
Qed.

(** ** C3: the capture-ready signal *)

(** C3.  In a pass of the server loop, from any session and any globals and
    whatever the environment answers: (a) every accept is preceded by the
    reset of [g_fbsem[display]] to 0; (b) a post of [g_fbsem[display]] comes
    directly after a [vnc_start_updater] that returned success; (c) if
    [vnc_connect], [vnc_negotiate] or [vnc_start_updater] fails, the pass
    posts nothing; (d) the count of [g_fbsem[display]] at the end of the
    pass is 0 after a failure and 1 after a start. *)
Theorem fbsem_cleared_then_posted_after_start (cfg : vnc_config)
    (display : Z) (fb0 : mem_ptr) (env : cycle_env) (s : vnc_session_s)
    (g : globals) :
  let c := vnc_connect env (session_at_connect cfg fb0 s)
             (RFB_DISPLAY_PORT cfg display) in
  let r := vnc_server_cycle cfg display fb0 env (s, g) in
  let failed := c.1.1 < 0 \/ cr_ret (env_negotiate env) < 0 \/
                cr_ret (env_start_updater env) < 0 in
  (forall l1 ra l2, r.2 = l1 ++ EvAccept ra :: l2 ->
     EvSemReset (FbSem display) 0 ∈ l1) /\
  (forall l1 l2, r.2 = l1 ++ EvSemPost (FbSem display) :: l2 ->
     exists l0 rs, l1 = l0 ++ [EvStartUpdater rs] /\ 0 <= rs /\
                   rs = cr_ret (env_start_updater env)) /\
  (failed -> EvSemPost (FbSem display) ∉ r.2) /\
  (forall count, g_fbsem g !! Z.to_nat display = Some count ->
     (failed -> g_fbsem r.1.2 !! Z.to_nat display = Some 0) /\
     (~ failed -> g_fbsem r.1.2 !! Z.to_nat display = Some 1)).
Proof.
  intros c r failed. subst r failed.
  pose proof (vnc_server_cycle_trace cfg display fb0 env s g) as Htr.
  pose proof (vnc_server_cycle_globals cfg display fb0 env s g) as Hg.
  pose proof (pass_prefix_events cfg display fb0 env s) as Hpre.
  cbv zeta in Htr, Hg. fold c in Htr, Hg, Hpre.
  set (post := EvSemPost (FbSem display)).
  assert (Hnopost : Forall (fun e => ~ e = post)
            (((vnc_reset_session cfg s fb0).2 ++
              [EvSemReset (FbSem display) 0]) ++ c.2)).
  { eapply Forall_impl; [exact Hpre|]. simpl.
    intros e He Hp. rewrite Hp in He. unfold post in He.
    destruct He as [H|[H|H]]; discriminate. }
  rewrite Htr, Hg. clear Htr Hg.
  split; [|split; [|split]].
  - intros l1 ra l2 Heq.
    apply (split_past_prefix (fun e => exists z, e = EvAccept z)) in Heq
      as (l1' & -> & _); [| |by eexists].
    + rewrite !elem_of_app, list_elem_of_singleton. tauto.
    + apply Forall_app. split; [|repeat constructor; by intros [z Hz]].
      eapply Forall_impl; [apply vnc_reset_session_events|]. simpl.
      intros e He [z ->]. discriminate.
  - intros l1 l2 Heq. rewrite app_assoc in Heq. unfold after_connect in Heq.
    destruct (0 <=? c.1.1);
      [|rewrite app_nil_r in Heq;
        by apply (split_absent (fun e => e = post)) in Heq].
    destruct (Z.ltb_spec (cr_ret (env_negotiate env)) 0).
    { apply (split_absent (fun e => e = post)) in Heq; [done| |done].
      apply Forall_app. split; [done|]. by repeat constructor. }
    destruct (Z.ltb_spec (cr_ret (env_start_updater env)) 0).
    { apply (split_absent (fun e => e = post)) in Heq; [done| |done].
      apply Forall_app. split; [done|]. by repeat constructor. }
    set (pre := ((vnc_reset_session cfg s fb0).2 ++
                 [EvSemReset (FbSem display) 0]) ++ c.2) in *.
    assert (Heq' :
      (pre ++ [EvNegotiate (cr_ret (env_negotiate env));
               EvStartUpdater (cr_ret (env_start_updater env))]) ++
      post :: [EvReceiver (cr_ret (env_receiver env));
               EvStopUpdater (cr_ret (env_stop_updater env))] =
      l1 ++ post :: l2) by (rewrite <- app_assoc; exact Heq).
    apply (split_unique (fun e => e = post)) in Heq' as (-> & _ & _);
      [| |by repeat constructor|done].
    + exists (pre ++ [EvNegotiate (cr_ret (env_negotiate env))]),
        (cr_ret (env_start_updater env)).
      rewrite <- !app_assoc. simpl.
      split; [reflexivity|]. split; [lia|reflexivity].
    + apply Forall_app. split; [done|]. by repeat constructor.
  - intros Hfail Hin. rewrite app_assoc in Hin.
    apply elem_of_app in Hin as [Hin|Hin].
    { rewrite Forall_forall in Hnopost. by apply (Hnopost post). }
    unfold after_connect in Hin.
    destruct (Z.leb_spec 0 c.1.1); [|by apply elem_of_nil in Hin].
    destruct (Z.ltb_spec (cr_ret (env_negotiate env)) 0).
    { apply list_elem_of_singleton in Hin. discriminate. }
    destruct (Z.ltb_spec (cr_ret (env_start_updater env)) 0); [|lia].
    apply elem_of_cons in Hin as [Hin|Hin]; [discriminate|].
    apply list_elem_of_singleton in Hin. discriminate.
  - intros count Hcount.
    assert (Hlt : (Z.to_nat display < length (g_fbsem g))%nat)
      by (by eapply lookup_lt_Some).
    split; intros Hfail; simpl.
    + destruct (Z.leb_spec 0 c.1.1); simpl;
        [|by apply list_lookup_insert_eq].
      destruct (Z.ltb_spec (cr_ret (env_negotiate env)) 0); simpl;
        [by apply list_lookup_insert_eq|].
      destruct (Z.ltb_spec (cr_ret (env_start_updater env)) 0); simpl;
        [by apply list_lookup_insert_eq|lia].
    + destruct (Z.leb_spec 0 c.1.1); simpl; [|lia].
      destruct (Z.ltb_spec (cr_ret (env_negotiate env)) 0); simpl; [lia|].
      destruct (Z.ltb_spec (cr_ret (env_start_updater env)) 0); simpl; [lia|].
      rewrite list_lookup_alter.
      destruct (decide (Z.to_nat display = Z.to_nat display)); [|done].
      by rewrite list_lookup_insert_eq.
Qed.

(** The theorem on two passes from a zeroed session: nothing is posted
    when [vnc_negotiate] fails, and the count is 1 when every call
    succeeds. *)
Lemma fbsem_cleared_then_posted_after_start_witness :
  (EvSemPost (FbSem 0) ∉
     (vnc_server_cycle (sample_config 2 false) 0 None env_negotiate_fails
        (zeroed_session 2, globals_at_boot)).2) /\
  g_fbsem
    (vnc_server_cycle (sample_config 2 false) 0 None env_all_ok
       (zeroed_session 2, globals_at_boot)).1.2 !! 0%nat = Some 1.
Proof.
  split.
  - refine (proj1 (proj2 (proj2
      (fbsem_cleared_then_posted_after_start (sample_config 2 false) 0 None
         env_negotiate_fails (zeroed_session 2) globals_at_boot))) _).
    right. left. simpl. lia.
  - refine (proj2 (proj2 (proj2 (proj2
      (fbsem_cleared_then_posted_after_start (sample_config 2 false) 0 None
         env_all_ok (zeroed_session 2) globals_at_boot))) 0 eq_refl) _).
    intros [H|[H|H]]; vm_compute in H; discriminate H.
Defined.

(** ** C4: the updater is stopped before the next reset *)

(** The loop runs its passes one after the other: the pass for the first
    entry of the script, then the loop for the rest from where that pass
    ended. *)
Lemma vnc_server_loop_cons (cfg : vnc_config) (display : Z) (fb0 : mem_ptr)
    (env : cycle_env) (script : list cycle_env) (st : vnc_session_s * globals) :
  let p := vnc_server_cycle cfg display fb0 env st in
  vnc_server_loop cfg display fb0 (env :: script) st =
    ((vnc_server_loop cfg display fb0 script p.1).1,
     p.2 ++ (vnc_server_loop cfg display fb0 script p.1).2).
Proof.
  simpl. destruct (vnc_server_cycle cfg display fb0 env st) as [[s1 g1] ev1].
  simpl. by destruct (vnc_server_loop cfg display fb0 script (s1, g1))
    as [[s2 g2] ev2].
Qed.

(** In one pass, a [vnc_start_updater] that returned success is followed by
    the post, the return of [vnc_receiver] and the call of
    [vnc_stop_updater], which ends the pass. *)
Lemma pass_stop_follows_start (cfg : vnc_config) (display : Z)
    (fb0 : mem_ptr) (env : cycle_env) (s : vnc_session_s) (g : globals)
    (l1 l2 : list event) (r : Z) :
  (vnc_server_cycle cfg display fb0 env (s, g)).2 =
    l1 ++ EvStartUpdater r :: l2 ->
  0 <= r ->
  l2 = [EvSemPost (FbSem display);
        EvReceiver (cr_ret (env_receiver env));
        EvStopUpdater (cr_ret (env_stop_updater env))].
Proof.
  intros Heq Hr.
  pose proof (pass_prefix_events cfg display fb0 env s) as Hpre.
  rewrite vnc_server_cycle_trace in Heq. cbv zeta in Heq.
  rewrite app_assoc in Heq.
  set (pre := ((vnc_reset_session cfg s fb0).2 ++
               [EvSemReset (FbSem display) 0]) ++ _) in *.
  set (P := fun e => exists z, e = EvStartUpdater z).
  assert (Hno : Forall (fun e => ~ P e) pre).
  { eapply Forall_impl; [exact Hpre|]. simpl.
    intros e He [z ->]. destruct He as [H|[H|H]]; discriminate. }
  assert (HP : P (EvStartUpdater r)) by (by exists r).
  unfold after_connect in Heq.
  destruct (0 <=? _);
    [|rewrite app_nil_r in Heq; by apply (split_absent P) in Heq].
  destruct (Z.ltb_spec (cr_ret (env_negotiate env)) 0).
  { apply (split_absent P) in Heq; [done| |done].
    apply Forall_app. split; [done|].
    apply Forall_singleton. by intros [z Hz]. }
  assert (Hneg : Forall (fun e => ~ P e)
            (pre ++ [EvNegotiate (cr_ret (env_negotiate env))])).
  { apply Forall_app. split; [done|].
    apply Forall_singleton. by intros [z Hz]. }
  destruct (Z.ltb_spec (cr_ret (env_start_updater env)) 0).
  - assert (Heq' :
      (pre ++ [EvNegotiate (cr_ret (env_negotiate env))]) ++
      EvStartUpdater (cr_ret (env_start_updater env)) :: [] =
      l1 ++ EvStartUpdater r :: l2) by (rewrite <- app_assoc; exact Heq).
    apply (split_unique P) in Heq' as (_ & Hz & _); [|done..].
    injection Hz as ->. lia.
  - assert (Heq' :
      (pre ++ [EvNegotiate (cr_ret (env_negotiate env))]) ++
      EvStartUpdater (cr_ret (env_start_updater env)) ::
      [EvSemPost (FbSem display);
       EvReceiver (cr_ret (env_receiver env));
       EvStopUpdater (cr_ret (env_stop_updater env))] =
      l1 ++ EvStartUpdater r :: l2) by (rewrite <- app_assoc; exact Heq).
    apply (split_unique P) in Heq' as (_ & _ & ->); [done|done| |done].
    repeat constructor; by intros [z Hz].
Qed.

(** C4.  In the trace of any number of passes of the server loop, from any
    session and whatever the environment answers, every
    [vnc_start_updater] that returned success is directly followed by the
    post, the return of [vnc_receiver] and the call of [vnc_stop_updater]:
    the updater is stopped after the receiver has returned, and any later
    [vnc_reset_session] comes after that stop. *)
Theorem updater_stopped_before_next_reset (cfg : vnc_config) (display : Z)
    (fb0 : mem_ptr) (script : list cycle_env) (s : vnc_session_s)
    (g : globals) :
  let tr := (vnc_server_loop cfg display fb0 script (s, g)).2 in
  (forall l1 r l2,
     tr = l1 ++ EvStartUpdater r :: l2 -> 0 <= r ->
     exists rr rt l3,
       l2 = EvSemPost (FbSem display) :: EvReceiver rr ::
            EvStopUpdater rt :: l3) /\
  (forall l1 r mid l2,
     tr = l1 ++ EvStartUpdater r :: mid ++ EvResetSession :: l2 -> 0 <= r ->
     exists rr rt mid',
       mid = EvSemPost (FbSem display) :: EvReceiver rr ::
             EvStopUpdater rt :: mid').
Proof.
  intros tr. subst tr.
  assert (Hfirst : forall script s g l1 r l2,
    (vnc_server_loop cfg display fb0 script (s, g)).2 =
      l1 ++ EvStartUpdater r :: l2 -> 0 <= r ->
    exists rr rt l3,
      l2 = EvSemPost (FbSem display) :: EvReceiver rr ::
           EvStopUpdater rt :: l3).
  { clear. intros script.
    induction script as [|env script IH]; intros s g l1 r l2 Heq Hr.
    - simpl in Heq. by destruct l1.
    - rewrite vnc_server_loop_cons in Heq. cbv zeta in Heq.
      destruct (vnc_server_cycle cfg display fb0 env (s, g))
        as [[s1 g1] ev1] eqn:Hpass. cbn [fst snd] in Heq.
      apply app_eq_inv in Heq as [(k & Hev & Hrest)|(k & -> & Hrest)].
      + destruct k as [|e k].
        * cbn [app] in Hrest. symmetry in Hrest.
          by apply (IH s1 g1 [] r l2).
        * cbn [app] in Hrest. injection Hrest as He Hl2. subst e l2.
          pose proof (pass_stop_follows_start cfg display fb0 env s g
                        l1 k r) as Hk.
          rewrite Hpass in Hk. cbn [fst snd] in Hk.
          rewrite (Hk Hev Hr). cbn [app]. eauto.
      + symmetry in Hrest. by apply (IH s1 g1 k r l2). }
  split; [apply Hfirst|].
  intros l1 r mid l2 Heq Hr.
  destruct (Hfirst script s g l1 r _ Heq Hr) as (rr & rt & l3 & Hmid).
  destruct mid as [|a [|b [|c mid']]]; simpl in Hmid; try discriminate.
  injection Hmid as -> -> -> _. eauto.
Qed.

(** The theorem on a successful pass followed by one in which
    [psock_bind] fails, at the start of the updater in the first pass. *)
Lemma updater_stopped_before_next_reset_witness :
  exists rr rt l3,
    [EvSemPost (FbSem 0); EvReceiver 0; EvStopUpdater 0; EvResetSession;
     EvClose Connect; EvClose Listen; EvSemReset FreeSem 2;
     EvSemReset QueueSem 0; EvSemReset (FbSem 0) 0; EvSocket 0;
     EvBind 5900 (-1); EvClose Listen] =
    EvSemPost (FbSem 0) :: EvReceiver rr :: EvStopUpdater rt :: l3.
Proof.
  refine (proj1 (updater_stopped_before_next_reset (sample_config 2 false) 0
                   None [env_all_ok; env_bind_fails] (zeroed_session 2)
                   globals_at_boot)
            [EvResetSession; EvSemReset FreeSem 2; EvSemReset QueueSem 0;
             EvSemReset (FbSem 0) 0; EvSocket 0; EvBind 5900 0; EvListen 0;
             EvAccept 0; EvNegotiate 0] 0 _ eq_refl _).
  lia.
Defined.

(** ** C6 and C2: vnc_connect and the listening socket *)

(** C6.  Once [psock_socket] has succeeded, and with failing socket calls
    leaving a positive errno: when [psock_bind], [psock_listen] or
    [psock_accept] fails, [vnc_connect] closes the listening socket last
    thing before it returns, returns the negated errno of the failing call,
    which is negative, and leaves [state] as it was; when all succeed it
    returns OK with [state] set to VNCSERVER_CONNECTED. *)
Theorem vnc_connect_failure_closes_listener (env : cycle_env)
    (s : vnc_session_s) (port : Z) :
  let r := vnc_connect env s port in
  0 <= sr_ret (env_socket env) ->
  (forall c, c ∈ [env_bind env; env_listen env; env_accept env] ->
     sr_ret c < 0 -> 0 < get_errno c) ->
  (sr_ret (env_bind env) < 0 ->
     left_with_listener_closed s r (get_errno (env_bind env))) /\
  (0 <= sr_ret (env_bind env) -> sr_ret (env_listen env) < 0 ->
     left_with_listener_closed s r (get_errno (env_listen env))) /\
  (0 <= sr_ret (env_bind env) -> 0 <= sr_ret (env_listen env) ->
   sr_ret (env_accept env) < 0 ->
     left_with_listener_closed s r (get_errno (env_accept env))) /\
  (0 <= sr_ret (env_bind env) -> 0 <= sr_ret (env_listen env) ->
   0 <= sr_ret (env_accept env) ->
     r.1.1 = OK /\ state r.1.2 = VNCSERVER_CONNECTED).
Proof.
  intros r Hsock Herrno. subst r.
  assert (Hb : sr_ret (env_bind env) < 0 -> 0 < get_errno (env_bind env))
    by (apply Herrno; rewrite !elem_of_cons; auto).
  assert (Hl : sr_ret (env_listen env) < 0 -> 0 < get_errno (env_listen env))
    by (apply Herrno; rewrite !elem_of_cons; auto).
  assert (Ha : sr_ret (env_accept env) < 0 -> 0 < get_errno (env_accept env))
    by (apply Herrno; rewrite !elem_of_cons; auto).
  unfold vnc_connect, errout_with_listener, left_with_listener_closed.
  destruct (Z.ltb_spec (sr_ret (env_socket env)) 0); [lia|].
  destruct (Z.ltb_spec (sr_ret (env_bind env)) 0).
  { simpl. repeat split; try lia. by eexists [_; _]. }
  destruct (Z.ltb_spec (sr_ret (env_listen env)) 0).
  { simpl. repeat split; try lia. by eexists [_; _; _]. }
  destruct (Z.ltb_spec (sr_ret (env_accept env)) 0).
  { simpl. repeat split; try lia. by eexists [_; _; _; _]. }
  simpl. repeat split; lia.
Qed.

(** The theorem when [psock_bind] fails with errno 98. *)
Lemma vnc_connect_failure_closes_listener_witness :
  left_with_listener_closed (zeroed_session 2)
    (vnc_connect env_bind_fails (zeroed_session 2) 5900) 98.
Proof.
  refine (proj1
    (vnc_connect_failure_closes_listener env_bind_fails (zeroed_session 2)
       5900 _ _) _).
  - simpl. lia.
  - intros c Hc Hneg. rewrite !elem_of_cons in Hc.
    destruct Hc as [->|[->|[->|Hc]]]; simpl in *; try lia.
    by apply elem_of_nil in Hc.
  - simpl. lia.
Defined.

(** C2, the claim fails: here every socket call succeeds, [vnc_connect]
    returns OK, and the listening socket is open at the return; no close of
    it has been logged. *)
Lemma vnc_connect_success_listener_still_open :
  let r := vnc_connect env_all_ok (zeroed_session 2) 5900 in
  r.1.1 = OK /\
  s_open (listen r.1.2) <> false /\
  EvClose Listen ∉ r.2.
Proof.
  split; [reflexivity|]. split; [discriminate|].
  intros Hin. vm_compute in Hin.
  repeat (apply elem_of_cons in Hin as [Hin|Hin]; [discriminate|]).
  by apply elem_of_nil in Hin.
Qed.

(** C2 as amended.  When all four socket calls succeed, [vnc_connect]
    returns OK with both sockets open and without a close of the listening
    socket; the listening socket is closed, with the connected one, by the
    next [vnc_reset_session] that finds the state at CONNECTED or
    beyond. *)
Theorem vnc_connect_success_keeps_listener_until_reset (cfg : vnc_config)
    (env : cycle_env) (s : vnc_session_s) (port : Z) (fb0 : mem_ptr) :
  let r := vnc_connect env s port in
  0 <= sr_ret (env_socket env) -> 0 <= sr_ret (env_bind env) ->
  0 <= sr_ret (env_listen env) -> 0 <= sr_ret (env_accept env) ->
  (r.1.1 = OK /\ state r.1.2 = VNCSERVER_CONNECTED /\
   s_open (listen r.1.2) = true /\ s_open (connect r.1.2) = true /\
   (EvClose Listen ∉ r.2)) /\
  (forall s1, state_rank VNCSERVER_CONNECTED <= state_rank (state s1) ->
     let r' := vnc_reset_session cfg s1 fb0 in
     s_open (listen r'.1) = false /\ s_open (connect r'.1) = false /\
     exists tl, r'.2 = [EvResetSession; EvClose Connect; EvClose Listen] ++ tl).
Proof.
  intros r Hs Hb Hl Ha. subst r. split.
  - unfold vnc_connect.
    destruct (Z.ltb_spec (sr_ret (env_socket env)) 0); [lia|].
    destruct (Z.ltb_spec (sr_ret (env_bind env)) 0); [lia|].
    destruct (Z.ltb_spec (sr_ret (env_listen env)) 0); [lia|].
    destruct (Z.ltb_spec (sr_ret (env_accept env)) 0); [lia|].
    simpl. repeat split.
    intros Hin.
    repeat (apply elem_of_cons in Hin as [Hin|Hin]; [discriminate|]).
    by apply elem_of_nil in Hin.
  - intros s1 Hrank r'. subst r'.
    pose proof (vnc_reset_session_sockets cfg s1 fb0) as Hsock.
    pose proof (vnc_reset_session_trace cfg s1 fb0) as Htr.
    cbv zeta in Hsock.
    destruct (Z.leb_spec (state_rank VNCSERVER_CONNECTED)
                (state_rank (state s1))); [|lia].
    destruct Hsock as [Hl1 Hc1]. rewrite Htr.
    split; [exact Hl1|]. split; [exact Hc1|]. simpl. eauto.
Qed.

(** The theorem when every call succeeds: the listener is open after
    [vnc_connect] and closed after the reset that follows. *)
Lemma vnc_connect_success_keeps_listener_until_reset_witness :
  let r := vnc_connect env_all_ok (zeroed_session 2) 5900 in
  s_open (listen r.1.2) = true /\
  s_open (listen (vnc_reset_session (sample_config 2 false) r.1.2 None).1) =
    false.
Proof.
  destruct (vnc_connect_success_keeps_listener_until_reset
              (sample_config 2 false) env_all_ok (zeroed_session 2) 5900 None)
    as [(_ & _ & Hopen & _) Hreset]; [simpl; lia..|].
  split; [exact Hopen|].
  refine (proj1 (Hreset _ _)). simpl. lia.
Defined.

(** ** C5: a failed handshake is reset before the next accept *)

(** The session at the end of a pass. *)
Lemma vnc_server_cycle_session (cfg : vnc_config) (display : Z)
    (fb0 : mem_ptr) (env : cycle_env) (s : vnc_session_s) (g : globals) :
  let c := vnc_connect env (session_at_connect cfg fb0 s)
             (RFB_DISPLAY_PORT cfg display) in
  let s1 := cr_effect (env_negotiate env) c.1.2 in
  let s2 := cr_effect (env_start_updater env) s1 in
  (vnc_server_cycle cfg display fb0 env (s, g)).1.1 =
    if 0 <=? c.1.1 then
      if cr_ret (env_negotiate env) <? 0 then s1
      else if cr_ret (env_start_updater env) <? 0 then s2
      else cr_effect (env_stop_updater env) (cr_effect (env_receiver env) s2)
    else c.1.2.
Proof.
  unfold vnc_server_cycle, session_at_connect.
  destruct (vnc_reset_session cfg s fb0) as [s1 ev1]. simpl.
  destruct (vnc_connect env s1 (RFB_DISPLAY_PORT cfg display))
    as [[ret s2] ev2]. simpl.
  destruct (0 <=? ret); [|done].
  destruct (cr_ret (env_negotiate env) <? 0); [done|].
  by destruct (cr_ret (env_start_updater env) <? 0).
Qed.

(** C5.  Take a pass in which [vnc_connect] succeeds and then either
    [vnc_negotiate] fails, or it succeeds and [vnc_start_updater] fails,
    the session being in state CONNECTED when the failing call returns.
    The pass ends with the return of the failing call; the loop goes on
    with the next pass, which starts with [vnc_reset_session] closing the
    connected and the listening socket before any call of [vnc_connect];
    the session that this [vnc_connect] gets has both sockets closed and is
    in state INITIALIZED. *)
Theorem failed_handshake_reset_before_next_accept (cfg : vnc_config)
    (display : Z) (fb0 : mem_ptr) (env env' : cycle_env)
    (script : list cycle_env) (s : vnc_session_s) (g : globals) :
  let port := RFB_DISPLAY_PORT cfg display in
  let c := vnc_connect env (session_at_connect cfg fb0 s) port in
  let after_negotiate := cr_effect (env_negotiate env) c.1.2 in
  let after_start := cr_effect (env_start_updater env) after_negotiate in
  let p := vnc_server_cycle cfg display fb0 env (s, g) in
  let s' := session_at_connect cfg fb0 p.1.1 in
  0 <= c.1.1 ->
  (cr_ret (env_negotiate env) < 0 /\
   state after_negotiate = VNCSERVER_CONNECTED) \/
  (0 <= cr_ret (env_negotiate env) /\
   cr_ret (env_start_updater env) < 0 /\
   state after_start = VNCSERVER_CONNECTED) ->
  (exists pre r, p.2 = pre ++ [r] /\
     (r = EvNegotiate (cr_ret (env_negotiate env)) \/
      r = EvStartUpdater (cr_ret (env_start_updater env)))) /\
  (exists tl,
     (vnc_server_loop cfg display fb0 (env :: env' :: script) (s, g)).2 =
       p.2 ++
       [EvResetSession; EvClose Connect; EvClose Listen;
        EvSemReset FreeSem (Z.of_nat (CONFIG_VNCSERVER_NUPDATES cfg));
        EvSemReset QueueSem 0; EvSemReset (FbSem display) 0] ++
       (vnc_connect env' s' port).2 ++ tl) /\
  s_open (listen s') = false /\
  s_open (connect s') = false /\
  state s' = VNCSERVER_INITIALIZED.
Proof.
  intros port c after_negotiate after_start p s' Hconn Hfail.
  assert (Hstate : state p.1.1 = VNCSERVER_CONNECTED).
  { subst p. rewrite vnc_server_cycle_session. cbv zeta.
    fold port. fold c. fold after_negotiate. fold after_start.
    destruct (Z.leb_spec 0 c.1.1); [|lia].
    destruct Hfail as [[Hn Hst]|(Hn & Hu & Hst)].
    - by destruct (Z.ltb_spec (cr_ret (env_negotiate env)) 0); [|lia].
    - destruct (Z.ltb_spec (cr_ret (env_negotiate env)) 0); [lia|].
      by destruct (Z.ltb_spec (cr_ret (env_start_updater env)) 0); [|lia]. }
  split; [|split].
  - subst p. rewrite vnc_server_cycle_trace. cbv zeta.
    fold port. fold c. unfold after_connect.
    destruct (Z.leb_spec 0 c.1.1); [|lia].
    destruct Hfail as [[Hn Hst]|(Hn & Hu & Hst)].
    + destruct (Z.ltb_spec (cr_ret (env_negotiate env)) 0); [|lia].
      eexists _, _. rewrite app_assoc. split; [reflexivity|]. by left.
    + destruct (Z.ltb_spec (cr_ret (env_negotiate env)) 0); [lia|].
      destruct (Z.ltb_spec (cr_ret (env_start_updater env)) 0); [|lia].
      exists ((((vnc_reset_session cfg s fb0).2 ++
                [EvSemReset (FbSem display) 0]) ++ c.2) ++
              [EvNegotiate (cr_ret (env_negotiate env))]),
             (EvStartUpdater (cr_ret (env_start_updater env))).
      rewrite <- !app_assoc. split; [reflexivity|]. by right.
  - rewrite vnc_server_loop_cons. cbv zeta. cbn [snd]. fold p.
    destruct p as [[s1 g1] ev1] eqn:Hp. cbn [fst snd] in *.
    rewrite vnc_server_loop_cons. cbv zeta. cbn [snd].
    rewrite vnc_server_cycle_trace. cbv zeta.
    rewrite vnc_reset_session_trace, Hstate. simpl.
    fold port. fold s'. rewrite <- !app_assoc. eauto.
  - pose proof (vnc_reset_session_sockets cfg p.1.1 fb0) as Hsock.
    destruct (vnc_reset_session_fields cfg p.1.1 fb0) as (Hinit & _).
    cbv zeta in Hsock. rewrite Hstate in Hsock. simpl in Hsock.
    destruct Hsock as [Hl Hc]. by repeat split.
Qed.

(** The theorem when the client connects and [vnc_negotiate] fails
    without touching the session. *)
Lemma failed_handshake_reset_before_next_accept_witness :
  let cfg := sample_config 2 false in
  let p := vnc_server_cycle cfg 0 None env_negotiate_fails
             (zeroed_session 2, globals_at_boot) in
  state p.1.1 = VNCSERVER_CONNECTED /\
  s_open (listen (session_at_connect cfg None p.1.1)) = false /\
  s_open (connect (session_at_connect cfg None p.1.1)) = false /\
  state (session_at_connect cfg None p.1.1) = VNCSERVER_INITIALIZED.
Proof.
  split; [reflexivity|].
  refine (proj2 (proj2
    (failed_handshake_reset_before_next_accept (sample_config 2 false) 0 None
       env_negotiate_fails env_all_ok [] (zeroed_session 2) globals_at_boot
       _ _))).
  - by vm_compute.
  - left. split; [by vm_compute|reflexivity].
Defined.

(** ** Start-up of vnc_server *)

(** The loop never writes [g_vnc_sessions]. *)
Lemma vnc_server_loop_registry (cfg : vnc_config) (display : Z)
    (fb0 : mem_ptr) (script : list cycle_env) :
  forall (s : vnc_session_s) (g : globals),
    g_vnc_sessions (vnc_server_loop cfg display fb0 script (s, g)).1.2 =
    g_vnc_sessions g.
Proof.
  induction script as [|env script IH]; intros s g; [done|].
  rewrite vnc_server_loop_cons. cbv zeta. cbn [fst].
  pose proof (vnc_server_cycle_globals cfg display fb0 env s g) as Hg.
  cbv zeta in Hg.
  destruct (vnc_server_cycle cfg display fb0 env (s, g)) as [[s1 g1] ev1].
  cbn [fst snd] in *. rewrite IH, Hg. done.
Qed.

(** The loop logs no start-up event. *)
Lemma vnc_server_loop_events (cfg : vnc_config) (display : Z)
    (fb0 : mem_ptr) (script : list cycle_env) :
  forall (s : vnc_session_s) (g : globals),
    Forall (fun e => startup_event e = false)
      (vnc_server_loop cfg display fb0 script (s, g)).2.
Proof.
  induction script as [|env script IH]; intros s g; [constructor|].
  rewrite vnc_server_loop_cons. cbv zeta. cbn [snd].
  apply Forall_app. split.
  - rewrite vnc_server_cycle_trace. cbv zeta. rewrite app_assoc.
    apply Forall_app. split.
    + eapply Forall_impl; [apply pass_prefix_events|]. simpl.
      intros e [H|[H| ->]]; [by destruct e as [| | | |[]| | | | | | | | | | |]
                            |by destruct e|done].
    + unfold after_connect.
      repeat (match goal with
              | |- context [if ?c then _ else _] => destruct c
              end); by repeat constructor.
  - destruct (vnc_server_cycle cfg display fb0 env (s, g)) as [[s1 g1] ev1].
    apply IH.
Qed.

(** The loop does not look at [CONFIG_DEBUG]. *)
Lemma vnc_server_loop_debug (b : bool) (cfg : vnc_config) (display : Z)
    (fb0 : mem_ptr) (script : list cycle_env) :
  forall st,
    vnc_server_loop (set_debug b cfg) display fb0 script st =
    vnc_server_loop cfg display fb0 script st.
Proof.
  induction script as [|env script IH]; intros st; [done|].
  simpl.
  change (vnc_server_cycle (set_debug b cfg) display fb0 env st)
    with (vnc_server_cycle cfg display fb0 env st).
  destruct (vnc_server_cycle cfg display fb0 env st) as [[s1 g1] ev1].
  by rewrite IH.
Qed.

(** The run of [vnc_server] when the entry assertion lets it pass, the
    argument count is 2, the display is in range and both allocations
    succeed. *)
Lemma vnc_server_serving (cfg : vnc_config) (atoi : string -> Z)
    (session0 : mem_ptr) (mem : alloc_env) (script : list cycle_env)
    (argv : list string) (g : globals) :
  let display := atoi (nth 1 argv EmptyString) in
  let g1 :=
    set_g_vnc_sessions
      (<[Z.to_nat display := alloc_session mem]> (g_vnc_sessions g)) g in
  let l := vnc_server_loop cfg display (alloc_fb mem) script
             (session_at_loop_entry cfg, g1) in
  DEBUGASSERT cfg (bool_decide (session0 <> None)) = true ->
  0 <= display < RFB_MAX_DISPLAYS cfg ->
  alloc_fb mem <> None -> alloc_session mem <> None ->
  vnc_server cfg atoi session0 mem script 2 argv g =
    (Serving l.1.1, l.1.2,
     [EvAlloc AllocFb (alloc_fb mem);
      EvAlloc AllocSession (alloc_session mem);
      EvRegister display (alloc_session mem);
      EvSemInit FreeSem (Z.of_nat (CONFIG_VNCSERVER_NUPDATES cfg));
      EvSemInit QueueSem 0] ++ l.2).
Proof.
  intros display g1 l Hassert Hrange Hfb Hsess. subst l g1.
  unfold vnc_server. rewrite Hassert. simpl negb. cbv iota.
  fold display.
  destruct (Z.ltb_spec display 0); [lia|].
  destruct (Z.leb_spec (RFB_MAX_DISPLAYS cfg) display); [lia|].
  simpl orb. cbv iota.
  rewrite (bool_decide_eq_false_2 _ Hfb), (bool_decide_eq_false_2 _ Hsess).
  fold (session_at_loop_entry cfg).
  by destruct (vnc_server_loop _ _ _ _ _) as [[s1 g1] ev1].
Qed.

(** ** C7: validation of the display number *)

(** C7.  For every run of [vnc_server]: (a) with two arguments and a
    display number that [atoi] gives as negative or as
    [RFB_MAX_DISPLAYS] or more, nothing is allocated, no call is made and
    the globals, [g_vnc_sessions] among them, are unchanged; the function
    returns EXIT_FAILURE if the entry assertion lets it pass; (b)
    [g_vnc_sessions] is either unchanged, or both allocations have
    succeeded and only the entry of the display has been written; (c) a
    store into [g_vnc_sessions] comes directly after the two allocations,
    both of which gave a non-null pointer. *)
Theorem invalid_display_rejected_before_allocation (cfg : vnc_config)
    (atoi : string -> Z) (session0 : mem_ptr) (mem : alloc_env)
    (script : list cycle_env) (argc : Z) (argv : list string) (g : globals) :
  let display := atoi (nth 1 argv EmptyString) in
  let r := vnc_server cfg atoi session0 mem script argc argv g in
  (argc = 2 -> display < 0 \/ RFB_MAX_DISPLAYS cfg <= display ->
     r.2 = [] /\ r.1.2 = g /\
     (DEBUGASSERT cfg (bool_decide (session0 <> None)) = true ->
        r.1.1 = Returned EXIT_FAILURE)) /\
  (g_vnc_sessions r.1.2 = g_vnc_sessions g \/
   (alloc_fb mem <> None /\ alloc_session mem <> None /\
    0 <= display < RFB_MAX_DISPLAYS cfg /\
    g_vnc_sessions r.1.2 =
      <[Z.to_nat display := alloc_session mem]> (g_vnc_sessions g))) /\
  (forall l1 d p l2, r.2 = l1 ++ EvRegister d p :: l2 ->
     l1 = [EvAlloc AllocFb (alloc_fb mem);
           EvAlloc AllocSession (alloc_session mem)] /\
     alloc_fb mem <> None /\ alloc_session mem <> None /\
     d = display /\ p = alloc_session mem).
Proof.
  intros display r. subst r.
  set (P := fun e => exists d p, e = EvRegister d p).
  assert (Hnil : forall l1 d p l2, [] <> l1 ++ EvRegister d p :: l2)
    by (by intros [|] ? ? ?).
  unfold vnc_server. fold display.
  destruct (DEBUGASSERT cfg (bool_decide (session0 <> None))) eqn:Hassert;
    simpl negb; cbv iota.
  2: { cbn [fst snd]. split; [done|]. split; [by left|].
       intros l1 d p l2 Heq. by apply Hnil in Heq. }
  destruct (Z.eqb_spec argc 2) as [->|Hargc]; simpl negb; cbv iota.
  2: { cbn [fst snd]. split; [done|]. split; [by left|].
       intros l1 d p l2 Heq. by apply Hnil in Heq. }
  destruct (Z.ltb_spec display 0); simpl orb; cbv iota.
  { cbn [fst snd]. split; [done|]. split; [by left|].
    intros l1 d p l2 Heq. by apply Hnil in Heq. }
  destruct (Z.leb_spec (RFB_MAX_DISPLAYS cfg) display); cbv iota.
  { cbn [fst snd]. split; [done|]. split; [by left|].
    intros l1 d p l2 Heq. by apply Hnil in Heq. }
  split; [intros _ [?|?]; lia|].
  destruct (bool_decide_reflect (alloc_fb mem = None)) as [Hfb|Hfb].
  { cbn [fst snd]. split; [by left|]. intros l1 d p l2 Heq.
    apply (split_absent P) in Heq; [done| |by exists d, p].
    repeat constructor. by intros (? & ? & ?). }
  destruct (bool_decide_reflect (alloc_session mem = None)) as [Hs|Hs].
  { cbn [fst snd]. split; [by left|]. intros l1 d p l2 Heq.
    apply (split_absent P) in Heq; [done| |by exists d, p].
    repeat constructor; by intros (? & ? & ?). }
  fold (session_at_loop_entry cfg).
  pose proof (vnc_server_loop_registry cfg display (alloc_fb mem) script
    (session_at_loop_entry cfg)
    (set_g_vnc_sessions
       (<[Z.to_nat display := alloc_session mem]> (g_vnc_sessions g)) g))
    as Hreg.
  pose proof (vnc_server_loop_events cfg display (alloc_fb mem) script
    (session_at_loop_entry cfg)
    (set_g_vnc_sessions
       (<[Z.to_nat display := alloc_session mem]> (g_vnc_sessions g)) g))
    as Hev.
  destruct (vnc_server_loop _ _ _ _ _) as [[s1 g1] ev1].
  cbn [fst snd] in *. split.
  - right. rewrite Hreg. simpl. repeat split; try done; lia.
  - intros l1 d p l2 Heq.
    assert (Heq' :
      [EvAlloc AllocFb (alloc_fb mem);
       EvAlloc AllocSession (alloc_session mem)] ++
      EvRegister display (alloc_session mem) ::
      (EvSemInit FreeSem (Z.of_nat (CONFIG_VNCSERVER_NUPDATES cfg)) ::
       EvSemInit QueueSem 0 :: ev1) = l1 ++ EvRegister d p :: l2)
      by exact Heq.
    apply (split_unique P) in Heq' as (-> & Hdp & _).
    + injection Hdp as -> ->. done.
    + repeat constructor; by intros (? & ? & ?).
    + repeat constructor; try (by intros (? & ? & ?)).
      eapply Forall_impl; [exact Hev|]. simpl.
      intros e He (? & ? & ->). discriminate.
    + by exists d, p.
Qed.

(** The theorem for the argument -1 with [libc_atoi]. *)
Lemma invalid_display_rejected_before_allocation_witness :
  vnc_server (sample_config 2 false) libc_atoi None mem_ok [env_all_ok] 2
    ["vnc"; "-1"]%string globals_at_boot =
  (Returned EXIT_FAILURE, globals_at_boot, []).
Proof.
  destruct (proj1
    (invalid_display_rejected_before_allocation (sample_config 2 false)
       libc_atoi
       None mem_ok [env_all_ok] 2 ["vnc"; "-1"]%string globals_at_boot)
    eq_refl) as (Hev & Hg & Hret).
  - left. vm_compute. reflexivity.
  - specialize (Hret eq_refl).
    destruct (vnc_server _ _ _ _ _ _ _ _) as [[o g'] ev]. simpl in *.
    by subst.
Defined.

(** ** C9: the assertion at the entry of vnc_server *)

(** A run ends in the entry assertion exactly when [DEBUGASSERT] stops on
    the content of the local variable; the allocator, the arguments and
    the environment have no part in it. *)
Lemma vnc_server_asserted_iff (cfg : vnc_config) (atoi : string -> Z)
    (session0 : mem_ptr) (mem : alloc_env) (script : list cycle_env)
    (argc : Z) (argv : list string) (g : globals) :
  (vnc_server cfg atoi session0 mem script argc argv g).1.1 = Asserted <->
  DEBUGASSERT cfg (bool_decide (session0 <> None)) = false.
Proof.
  unfold vnc_server.
  destruct (DEBUGASSERT cfg (bool_decide (session0 <> None)));
    simpl negb; cbv iota; [|done].
  split; [|done]. intros Hrun. exfalso. revert Hrun.
  destruct (negb (argc =? 2)); [done|].
  destruct (_ || _); [done|].
  destruct (bool_decide (alloc_fb mem = None)); [done|].
  destruct (bool_decide (alloc_session mem = None)); [done|].
  by destruct (vnc_server_loop _ _ _ _ _) as [[s1 g1] ev1].
Qed.

(** The run in which the framebuffer is allocated and the allocation of
    the session gives NULL. *)
Lemma vnc_server_session_alloc_fails (cfg : vnc_config) (atoi : string -> Z)
    (session0 : mem_ptr) (mem : alloc_env) (script : list cycle_env)
    (argv : list string) (g : globals) :
  DEBUGASSERT cfg (bool_decide (session0 <> None)) = true ->
  0 <= atoi (nth 1 argv EmptyString) < RFB_MAX_DISPLAYS cfg ->
  alloc_fb mem <> None -> alloc_session mem = None ->
  vnc_server cfg atoi session0 mem script 2 argv g =
    (Returned EXIT_FAILURE, g,
     [EvAlloc AllocFb (alloc_fb mem); EvAlloc AllocSession None;
      EvFree (alloc_fb mem)]).
Proof.
  intros Hassert Hrange Hfb Hsess.
  unfold vnc_server. rewrite Hassert. simpl negb. cbv iota.
  destruct (Z.ltb_spec (atoi (nth 1 argv EmptyString)) 0); [lia|].
  destruct (Z.leb_spec (RFB_MAX_DISPLAYS cfg)
              (atoi (nth 1 argv EmptyString))); [lia|].
  simpl orb. cbv iota.
  rewrite (bool_decide_eq_false_2 _ Hfb), Hsess.
  by rewrite bool_decide_eq_true_2.
Qed.

(** C9.  The assertion at the entry of [vnc_server] tests the content that
    the local variable [session] happens to have, not a value the function
    has computed.  In a debug build, for every argument list, allocator,
    environment and globals: (a) if that content is null the run ends in
    the assertion before anything else is done, also when the allocation
    of the session would have succeeded; (b) if it is not null the
    assertion passes, and the run is the run of the build without
    assertions, which never ends in the assertion; (c) whether the run
    ends in the assertion does not depend on allocator, arguments or
    environment; (d) the assertion passes on non-null content also in the
    run in which the session pointer that the function obtains is NULL:
    that run goes on to free the framebuffer and to return
    EXIT_FAILURE. *)
Theorem entry_assertion_reads_unassigned_session (cfg : vnc_config)
    (atoi : string -> Z) (mem : alloc_env) (script : list cycle_env)
    (argc : Z) (argv : list string) (g : globals) :
  vnc_server (set_debug true cfg) atoi None mem script argc argv g =
    (Asserted, g, []) /\
  (forall p q,
     vnc_server (set_debug true cfg) atoi (Some p) mem script argc argv g =
     vnc_server (set_debug false cfg) atoi q mem script argc argv g) /\
  (forall q mem',
     vnc_server (set_debug true cfg) atoi q mem script argc argv g =
       (Asserted, g, []) <->
     vnc_server (set_debug true cfg) atoi q mem' [] 0 [] g =
       (Asserted, g, [])) /\
  (forall p,
     (vnc_server (set_debug true cfg) atoi (Some p) mem script argc argv
        g).1.1 <> Asserted) /\
  (forall q,
     (vnc_server (set_debug false cfg) atoi q mem script argc argv g).1.1 <>
     Asserted) /\
  (forall q,
     (vnc_server (set_debug true cfg) atoi q mem script argc argv g).1.1 =
       Asserted <-> q = None) /\
  (forall p,
     argc = 2 ->
     0 <= atoi (nth 1 argv EmptyString) < RFB_MAX_DISPLAYS cfg ->
     alloc_fb mem <> None -> alloc_session mem = None ->
     vnc_server (set_debug true cfg) atoi (Some p) mem script argc argv g =
       (Returned EXIT_FAILURE, g,
        [EvAlloc AllocFb (alloc_fb mem); EvAlloc AllocSession None;
         EvFree (alloc_fb mem)])).
Proof.
  assert (Hsome : forall p q,
    vnc_server (set_debug true cfg) atoi (Some p) mem script argc argv g =
    vnc_server (set_debug false cfg) atoi q mem script argc argv g).
  { intros p q. unfold vnc_server, DEBUGASSERT. cbn [CONFIG_DEBUG set_debug].
    rewrite bool_decide_eq_true_2 by done. simpl negb. cbv iota.
    destruct (negb (argc =? 2)); [done|].
    cbn [RFB_MAX_DISPLAYS RFB_DISPLAY_PORT CONFIG_VNCSERVER_NUPDATES].
    destruct (_ || _); [done|].
    destruct (bool_decide (alloc_fb mem = None)); [done|].
    destruct (bool_decide (alloc_session mem = None)); [done|].
    by rewrite !vnc_server_loop_debug. }
  assert (Hiff : forall q,
    (vnc_server (set_debug true cfg) atoi q mem script argc argv g).1.1 =
      Asserted <-> q = None).
  { intros q. rewrite vnc_server_asserted_iff.
    unfold DEBUGASSERT. cbn [CONFIG_DEBUG set_debug].
    destruct q as [p|].
    - by rewrite bool_decide_eq_true_2.
    - by rewrite bool_decide_eq_false_2 by (by intros H). }
  split; [done|]. split; [exact Hsome|].
  split; [|split; [|split; [|split]]].
  - intros [p|] mem'; [|done].
    rewrite (Hsome p None).
    split; intros Hrun; exfalso; revert Hrun.
    + unfold vnc_server, DEBUGASSERT. cbn [CONFIG_DEBUG set_debug].
      simpl negb. cbv iota.
      destruct (negb (argc =? 2)); [done|].
      destruct (_ || _); [done|].
      destruct (bool_decide (alloc_fb mem = None)); [done|].
      destruct (bool_decide (alloc_session mem = None)); [done|].
      by destruct (vnc_server_loop _ _ _ _ _) as [[s1 g1] ev1].
    + done.
  - intros p Hrun. by apply Hiff in Hrun.
  - intros q Hrun. apply vnc_server_asserted_iff in Hrun. done.
  - exact Hiff.
  - intros p -> Hrange Hfb Hsess.
    by apply vnc_server_session_alloc_fails.
Qed.

(** The theorem in a debug build, with arguments and an allocator that let
    the server start: the run ends in the assertion when the local variable
    holds null, and goes on to serve when it holds anything else. *)
Lemma entry_assertion_reads_unassigned_session_witness :
  vnc_server (sample_config 2 true) libc_atoi None mem_ok [env_all_ok] 2
    ["vnc"; "0"]%string globals_at_boot = (Asserted, globals_at_boot, []) /\
  (vnc_server (sample_config 2 true) libc_atoi (Some 7%nat) mem_ok
     [env_all_ok] 2 ["vnc"; "0"]%string globals_at_boot).1.1 <> Asserted.
Proof.
  split.
  - exact (proj1 (entry_assertion_reads_unassigned_session
                    (sample_config 2 false) libc_atoi mem_ok [env_all_ok] 2
                    ["vnc"; "0"]%string globals_at_boot)).
  - exact (proj1 (proj2 (proj2 (proj2
             (entry_assertion_reads_unassigned_session
                (sample_config 2 false) libc_atoi mem_ok [env_all_ok] 2
                ["vnc"; "0"]%string globals_at_boot)))) 7%nat).
Defined.

(** ** C10: only the value of atoi is validated *)

Lemma digits_value_no_digit (acc : Z) (s : string) :
  match s with String c _ => isdigit c | EmptyString => false end = false ->
  digits_value acc s = acc.
Proof. destruct s as [|c s]; simpl; [done|]. by intros ->. Qed.

(** [libc_atoi] gives 0 for every string without a number at its start. *)
Lemma libc_atoi_non_numeric (s : string) :
  non_numeric s = true -> libc_atoi s = 0.
Proof.
  unfold non_numeric, libc_atoi. intros H.
  destruct (skip_space s) as [|c s'] eqn:Hs; [done|].
  destruct (Ascii.eqb_spec c "-") as [->|Hm].
  { apply negb_true_iff in H. by rewrite digits_value_no_digit. }
  destruct (Ascii.eqb_spec c "+") as [->|Hp].
  { apply negb_true_iff in H. by rewrite digits_value_no_digit. }
  assert (Hz : to_int (digits_value 0 (String c s')) = 0).
  { assert (H' : negb (isdigit c) = true).
    { revert H. clear -Hm Hp.
      destruct c as [[] [] [] [] [] [] [] []]; try done. }
    apply negb_true_iff in H'. by rewrite digits_value_no_digit. }
  revert Hz. clear -Hm Hp.
  destruct c as [[] [] [] [] [] [] [] []]; try done.
Qed.

(** C10.  With two arguments, at least one display configured and the
    entry assertion out of the way, an argument that [atoi] gives as 0 is
    not rejected: [vnc_server] goes on to allocate, and when both
    allocations succeed it registers the session as display 0 and enters
    the loop for display 0.  The run depends on the argument only through
    the value of [atoi]: two argument lists whose second entries have the
    same [atoi] value give the same run. *)
Theorem argument_parsed_as_zero_serves_display_0 (cfg : vnc_config)
    (atoi : string -> Z) (session0 : mem_ptr) (mem : alloc_env)
    (script : list cycle_env) (argv : list string) (g : globals) :
  let r := vnc_server cfg atoi session0 mem script 2 argv g in
  let g1 :=
    set_g_vnc_sessions (<[0%nat := alloc_session mem]> (g_vnc_sessions g)) g in
  let l := vnc_server_loop cfg 0 (alloc_fb mem) script
             (session_at_loop_entry cfg, g1) in
  atoi (nth 1 argv EmptyString) = 0 ->
  0 < RFB_MAX_DISPLAYS cfg ->
  DEBUGASSERT cfg (bool_decide (session0 <> None)) = true ->
  (exists tl, r.2 = EvAlloc AllocFb (alloc_fb mem) :: tl) /\
  (alloc_fb mem <> None -> alloc_session mem <> None ->
     r = (Serving l.1.1, l.1.2,
          [EvAlloc AllocFb (alloc_fb mem);
           EvAlloc AllocSession (alloc_session mem);
           EvRegister 0 (alloc_session mem);
           EvSemInit FreeSem (Z.of_nat (CONFIG_VNCSERVER_NUPDATES cfg));
           EvSemInit QueueSem 0] ++ l.2) /\
     g_vnc_sessions r.1.2 =
       <[0%nat := alloc_session mem]> (g_vnc_sessions g)) /\
  (forall argv',
     atoi (nth 1 argv' EmptyString) = atoi (nth 1 argv EmptyString) ->
     vnc_server cfg atoi session0 mem script 2 argv' g = r).
Proof.
  intros r g1 l Hzero Hmax Hassert. subst r g1 l.
  split; [|split].
  - unfold vnc_server. rewrite Hassert, Hzero. simpl negb. cbv iota.
    destruct (Z.ltb_spec 0 0); [lia|].
    destruct (Z.leb_spec (RFB_MAX_DISPLAYS cfg) 0); [lia|].
    simpl orb. cbv iota.
    destruct (bool_decide (alloc_fb mem = None)); [by eexists|].
    destruct (bool_decide (alloc_session mem = None)); [by eexists|].
    destruct (vnc_server_loop _ _ _ _ _) as [[s1 g1] ev1]. by eexists.
  - intros Hfb Hsess.
    pose proof (vnc_server_serving cfg atoi session0 mem script argv g
                  Hassert) as Hrun.
    cbv zeta in Hrun. rewrite Hzero in Hrun.
    rewrite Hrun by (done || lia). split; [done|].
    cbn [fst snd]. by rewrite vnc_server_loop_registry.
  - intros argv' Heq. unfold vnc_server. by rewrite Heq.
Qed.

(** The theorem for the argument abc with [libc_atoi]: the
    server registers its session as display 0. *)
Lemma argument_parsed_as_zero_serves_display_0_witness :
  let r := vnc_server (sample_config 2 false) libc_atoi None mem_ok [env_all_ok] 2
             ["vnc"; "abc"]%string globals_at_boot in
  (exists session, r.1.1 = Serving session) /\
  g_vnc_sessions r.1.2 = [Some 2%nat].
Proof.
  destruct (argument_parsed_as_zero_serves_display_0 (sample_config 2 false)
              libc_atoi None mem_ok [env_all_ok] ["vnc"; "abc"]%string
              globals_at_boot) as (_ & Hserve & _).
  - reflexivity.
  - simpl. lia.
  - reflexivity.
  - destruct Hserve as [Hrun Hreg]; [discriminate..|].
    split; [|exact Hreg]. rewrite Hrun. by eexists.
Defined.

(** ** C8: vnc_find_session *)

(** For a display in range the assertion holds in every build and the
    entry of [g_vnc_sessions] is returned. *)
Lemma vnc_find_session_in_range (cfg : vnc_config) (display : Z)
    (g : globals) :
  0 <= display < RFB_MAX_DISPLAYS cfg ->
  vnc_find_session cfg display g =
    (LookupReturned (registry_entry g display), g).
Proof.
  intros Hrange. unfold vnc_find_session, DEBUGASSERT.
  destruct (Z.leb_spec 0 display); [|lia].
  destruct (Z.ltb_spec display (RFB_MAX_DISPLAYS cfg)); [|lia].
  by destruct (CONFIG_DEBUG cfg).
Qed.

(** C8, the failing input: in a debug build the lookup of display [-1]
    stops in [DEBUGASSERT]; it does not return NULL. *)
Lemma vnc_find_session_negative_display_asserts :
  let r := vnc_find_session (sample_config 2 true) (-1) globals_at_boot in
  r.1 = LookupAsserted /\ r.1 <> LookupReturned None.
Proof. split; [reflexivity|discriminate]. Qed.

(** C8, the behaviour of the code.  [vnc_find_session] never changes the
    globals.  For a display in range it returns [g_vnc_sessions[display]]
    in every build, and that is NULL on the zero-filled array that no
    server has written yet.  For a negative display or one from
    [RFB_MAX_DISPLAYS] on, it returns NULL where [DEBUGASSERT] expands to
    nothing, as its header comment says; in a debug build it stops in the
    assertion and returns nothing. *)
Theorem vnc_find_session_lookup (cfg : vnc_config) (display : Z)
    (g : globals) :
  let r := vnc_find_session cfg display g in
  r.2 = g /\
  (0 <= display < RFB_MAX_DISPLAYS cfg ->
     r.1 = LookupReturned (registry_entry g display)) /\
  (0 <= display < RFB_MAX_DISPLAYS cfg ->
   g_vnc_sessions g = replicate (Z.to_nat (RFB_MAX_DISPLAYS cfg)) None ->
     r.1 = LookupReturned None) /\
  (display < 0 \/ RFB_MAX_DISPLAYS cfg <= display ->
     r.1 = if CONFIG_DEBUG cfg then LookupAsserted else LookupReturned None).
Proof.
  intros r. subst r.
  split; [unfold vnc_find_session; by destruct (negb _)|].
  split; [intros Hr; by rewrite vnc_find_session_in_range|].
  split.
  - intros Hr Hboot. rewrite vnc_find_session_in_range by done.
    cbn [fst]. f_equal. unfold registry_entry. rewrite Hboot.
    destruct (replicate _ _ !! _) as [e|] eqn:He; [|done].
    by apply lookup_replicate in He as [-> _].
  - intros Hout. unfold vnc_find_session, DEBUGASSERT.
    destruct (Z.leb_spec 0 display),
      (Z.ltb_spec display (RFB_MAX_DISPLAYS cfg)), (CONFIG_DEBUG cfg);
      simpl; first [done | lia].
Qed.

(** The theorem for a registered display 0 in a debug build and for
    display 1 of a one-display build without assertions. *)
Lemma vnc_find_session_lookup_witness :
  (vnc_find_session (sample_config 2 true) 0
     {| g_vnc_sessions := [Some 2%nat]; g_fbsem := [0] |}).1 =
    LookupReturned (Some 2%nat) /\
  (vnc_find_session (sample_config 2 false) 1 globals_at_boot).1 =
    LookupReturned None.
Proof.
  split.
  - refine (proj1 (proj2
      (vnc_find_session_lookup (sample_config 2 true) 0
         {| g_vnc_sessions := [Some 2%nat]; g_fbsem := [0] |})) _).
    simpl. lia.
  - refine (proj2 (proj2 (proj2
      (vnc_find_session_lookup (sample_config 2 false) 1 globals_at_boot)))
      _).
    right. simpl. lia.
Defined.

(** X9.  Once [vnc_server] serves a display (two arguments, display in
    range of the registry, both allocations successful, entry assertion
    passed), [vnc_find_session] for that display returns the session that
    [vnc_server] has allocated, after any number of loop passes. *)
Lemma vnc_find_session_after_vnc_server (cfg : vnc_config)
    (atoi : string -> Z) (session0 : mem_ptr) (mem : alloc_env)
    (script : list cycle_env) (argv : list string) (g : globals) :
  let display := atoi (nth 1 argv EmptyString) in
  let r := vnc_server cfg atoi session0 mem script 2 argv g in
  DEBUGASSERT cfg (bool_decide (session0 <> None)) = true ->
  0 <= display < RFB_MAX_DISPLAYS cfg ->
  (Z.to_nat display < length (g_vnc_sessions g))%nat ->
  alloc_fb mem <> None -> alloc_session mem <> None ->
  (vnc_find_session cfg display r.1.2).1 = LookupReturned (alloc_session mem).
Proof.
  intros display r Hassert Hrange Hlen Hfb Hsess. subst r.
  pose proof (vnc_server_serving cfg atoi session0 mem script argv g
                Hassert Hrange Hfb Hsess) as Hrun.
  cbv zeta in Hrun. fold display in Hrun. rewrite Hrun. cbn [fst snd].
  rewrite vnc_find_session_in_range by done. cbn [fst]. f_equal.
  unfold registry_entry. rewrite vnc_server_loop_registry. simpl.
  by rewrite list_lookup_insert_eq.
Qed.

(** * Further properties of the code *)

(** ** vnc_connect: what a call does to the session *)

(** The three ways out of [vnc_connect]: success, failure to create the
    listening socket, failure of a later call. *)
Lemma vnc_connect_outcome (env : cycle_env) (s : vnc_session_s) (port : Z) :
  let r := vnc_connect env s port in
  (all_calls_succeed env /\ r.1.1 = OK /\
   state r.1.2 = VNCSERVER_CONNECTED /\
   s_open (listen r.1.2) = true /\ s_open (connect r.1.2) = true /\
   (EvClose Listen ∉ r.2)) \/
  (sr_ret (env_socket env) < 0 /\
   r = (- get_errno (env_socket env), s,
        [EvSocket (sr_ret (env_socket env))])) \/
  (0 <= sr_ret (env_socket env) /\ ~ all_calls_succeed env /\
   (exists c, c ∈ [env_bind env; env_listen env; env_accept env] /\
              sr_ret c < 0 /\ r.1.1 = - get_errno c) /\
   state r.1.2 = state s /\ connect r.1.2 = connect s /\
   s_open (listen r.1.2) = false /\ EvClose Listen ∈ r.2).
Proof.
  intros r. subst r.
  unfold vnc_connect, errout_with_listener, all_calls_succeed.
  destruct (Z.ltb_spec (sr_ret (env_socket env)) 0).
  { right. left. by split. }
  destruct (Z.ltb_spec (sr_ret (env_bind env)) 0).
  { right. right. simpl. split; [done|]. split; [lia|].
    split; [exists (env_bind env); rewrite !elem_of_cons; auto|].
    repeat split. rewrite !elem_of_cons. intuition. }
  destruct (Z.ltb_spec (sr_ret (env_listen env)) 0).
  { right. right. simpl. split; [done|]. split; [lia|].
    split; [exists (env_listen env); rewrite !elem_of_cons; auto|].
    repeat split. rewrite !elem_of_cons. intuition. }
  destruct (Z.ltb_spec (sr_ret (env_accept env)) 0).
  { right. right. simpl. split; [done|]. split; [lia|].
    split; [exists (env_accept env); rewrite !elem_of_cons; auto|].
    repeat split. rewrite !elem_of_cons. intuition. }
  left. simpl. repeat split; try done.
  intros Hin.
  repeat (apply elem_of_cons in Hin as [Hin|Hin]; [discriminate|]).
  by apply elem_of_nil in Hin.
Qed.

(** With failing calls leaving a positive errno, [vnc_connect] returns a
    value that is not negative only when every call succeeded. *)
Lemma vnc_connect_ret_sign (env : cycle_env) (s : vnc_session_s) (port : Z) :
  errno_positive env ->
  (all_calls_succeed env /\ (vnc_connect env s port).1.1 = OK) \/
  (~ all_calls_succeed env /\ (vnc_connect env s port).1.1 < 0).
Proof.
  intros Herr.
  destruct (vnc_connect_outcome env s port)
    as [(Hok & Hret & _)|[(Hs & Hr)|(Hs & Hnot & (c & Hc & Hneg & Hret) & _)]].
  - by left.
  - right. rewrite Hr. cbn [fst]. split.
    + unfold all_calls_succeed. lia.
    + assert (0 < get_errno (env_socket env)); [|lia].
      apply Herr; [rewrite !elem_of_cons; auto|done].
  - right. split; [done|]. rewrite Hret.
    assert (0 < get_errno c); [|lia].
    apply Herr; [|done]. apply elem_of_cons. by right.
Qed.

(** X1.  [vnc_connect] opens the connected socket and sets the state only
    on success: when every call succeeds it returns OK with both sockets
    open, state CONNECTED and no close; when some call fails, state and
    connected socket are as at entry.  It closes the listening socket
    exactly when that socket was created and a later call failed; when the
    creation itself fails the session is left as it was.  Queues, pool,
    counters and framebuffer pointer are never touched.  With failing calls
    leaving a positive errno, OK is returned exactly on success. *)
Theorem vnc_connect_effects (env : cycle_env) (s : vnc_session_s) (port : Z) :
  let r := vnc_connect env s port in
  (all_calls_succeed env ->
     r.1.1 = OK /\ state r.1.2 = VNCSERVER_CONNECTED /\
     s_open (listen r.1.2) = true /\ s_open (connect r.1.2) = true) /\
  (~ all_calls_succeed env ->
     state r.1.2 = state s /\ connect r.1.2 = connect s) /\
  (EvClose Listen ∈ r.2 <->
     0 <= sr_ret (env_socket env) /\ ~ all_calls_succeed env) /\
  (sr_ret (env_socket env) < 0 -> r.1.2 = s) /\
  (updfree r.1.2 = updfree s /\ updqueue r.1.2 = updqueue s /\
   updpool r.1.2 = updpool s /\ freesem r.1.2 = freesem s /\
   queuesem r.1.2 = queuesem s /\ fb r.1.2 = fb s) /\
  (errno_positive env -> (r.1.1 = OK <-> all_calls_succeed env)).
Proof.
  intros r. subst r.
  pose proof (vnc_connect_outcome env s port) as Hout. cbv zeta in Hout.
  split; [|split; [|split; [|split; [|split]]]].
  - intros Hok.
    destruct Hout as [(_ & H1 & H2 & H3 & H4 & _)|[(Hs & _)|(_ & Hnot & _)]];
      [done| |done].
    unfold all_calls_succeed in Hok. lia.
  - intros Hnot.
    destruct Hout as [(Hok & _)|[(_ & ->)|(_ & _ & _ & H1 & H2 & _)]]; done.
  - split.
    + intros Hin.
      destruct Hout as [(_ & _ & _ & _ & _ & Hno)|[(_ & Hr)|(Hs & Hnot & _)]];
        [done| |done].
      rewrite Hr in Hin. cbn [snd] in Hin.
      apply list_elem_of_singleton in Hin. discriminate.
    + intros [Hs Hnot].
      destruct Hout as [(Hok & _)|[(Hs' & _)|(_ & _ & _ & _ & _ & _ & Hin)]];
        [done|lia|done].
  - intros Hs.
    destruct Hout as [(Hok & _)|[(_ & ->)|(Hs' & _)]]; [|done|lia].
    unfold all_calls_succeed in Hok. lia.
  - unfold vnc_connect, errout_with_listener.
    repeat (match goal with
            | |- context [if ?c then _ else _] => destruct c
            end); by repeat split.
  - intros Herr.
    destruct (vnc_connect_ret_sign env s port Herr) as [[Hok Hret]|[Hnot Hret]].
    + by split.
    + split; [|done]. intros Heq. rewrite Heq in Hret. unfold OK in Hret. lia.
Qed.

(** ** A pass of the loop: when the negotiation runs *)

(** X2.  With failing socket calls leaving a positive errno, a pass of the
    server loop calls [vnc_negotiate] exactly when all four socket calls of
    [vnc_connect] succeeded, and the session that [vnc_negotiate] is given
    then is in state CONNECTED with both sockets open. *)
Theorem negotiate_runs_only_on_connected_session (cfg : vnc_config)
    (display : Z) (fb0 : mem_ptr) (env : cycle_env) (s : vnc_session_s)
    (g : globals) :
  let c := vnc_connect env (session_at_connect cfg fb0 s)
             (RFB_DISPLAY_PORT cfg display) in
  let tr := (vnc_server_cycle cfg display fb0 env (s, g)).2 in
  errno_positive env ->
  ((exists z, EvNegotiate z ∈ tr) <-> all_calls_succeed env) /\
  ((exists z, EvNegotiate z ∈ tr) ->
     state c.1.2 = VNCSERVER_CONNECTED /\
     s_open (listen c.1.2) = true /\ s_open (connect c.1.2) = true).
Proof.
  intros c tr Herr. subst tr.
  pose proof (pass_prefix_events cfg display fb0 env s) as Hpre.
  rewrite vnc_server_cycle_trace. cbv zeta. rewrite app_assoc. fold c.
  fold c in Hpre.
  assert (Hiff : (exists z, EvNegotiate z ∈
            (((vnc_reset_session cfg s fb0).2 ++
              [EvSemReset (FbSem display) 0]) ++ c.2) ++
            after_connect display env c.1.1) <-> all_calls_succeed env).
  { destruct (vnc_connect_ret_sign env (session_at_connect cfg fb0 s)
                (RFB_DISPLAY_PORT cfg display) Herr) as [[Hok Hret]|[Hnot Hret]];
      fold c in Hret.
    - split; [done|]. intros _.
      exists (cr_ret (env_negotiate env)).
      apply elem_of_app. right. unfold after_connect. rewrite Hret.
      simpl. apply elem_of_cons. by left.
    - split; [|done]. intros [z Hin]. exfalso.
      apply elem_of_app in Hin as [Hin|Hin].
      + rewrite Forall_forall in Hpre.
        destruct (Hpre _ Hin) as [H|[H|H]]; discriminate.
      + unfold after_connect in Hin.
        destruct (Z.leb_spec 0 c.1.1); [lia|]. by apply elem_of_nil in Hin. }
  split; [exact Hiff|].
  intros Hneg. apply Hiff in Hneg.
  destruct (vnc_connect_outcome env (session_at_connect cfg fb0 s)
              (RFB_DISPLAY_PORT cfg display))
    as [(_ & _ & H1 & H2 & H3 & _)|[(Hs & _)|(_ & Hnot & _)]];
    [done| |done].
  unfold all_calls_succeed in Hneg. lia.
Qed.

(** The theorem when [psock_bind] fails with errno 98: the negotiation is
    not called. *)
Lemma negotiate_runs_only_on_connected_session_witness :
  ~ exists z, EvNegotiate z ∈
      (vnc_server_cycle (sample_config 2 false) 0 None env_bind_fails
         (zeroed_session 2, globals_at_boot)).2.
Proof.
  intros Hneg.
  destruct (negotiate_runs_only_on_connected_session (sample_config 2 false)
              0 None env_bind_fails (zeroed_session 2) globals_at_boot)
    as [Hiff _].
  - intros c Hc Hlt. rewrite !elem_of_cons in Hc.
    destruct Hc as [->|[->|[->|[->|Hc]]]]; simpl in *; try lia.
    by apply elem_of_nil in Hc.
  - apply Hiff in Hneg. destruct Hneg as (_ & Hb & _). simpl in Hb. lia.
Defined.

(** ** vnc_reset_session: resetting twice, and the last descriptor *)

Lemma link_loop_length (idx : list nat) :
  forall (a : nat) (pool : list upd_ptr),
    length (link_loop idx a pool).2 = length pool.
Proof.
  induction idx as [|i idx IH]; intros a pool; simpl; [done|].
  by rewrite IH, length_insert.
Qed.

Lemma length_reset_pool (n : nat) (pool : list upd_ptr) :
  length (reset_pool n pool) = length pool.
Proof. unfold reset_pool. by rewrite length_insert, link_loop_length. Qed.

(** The result of [vnc_reset_session], written out. *)
Lemma vnc_reset_session_eq (cfg : vnc_config) (s : vnc_session_s)
    (fb0 : mem_ptr) :
  let n := CONFIG_VNCSERVER_NUPDATES cfg in
  let c := state_rank VNCSERVER_CONNECTED <=? state_rank (state s) in
  vnc_reset_session cfg s fb0 =
    ({| listen := if c then {| s_open := false |} else listen s;
        connect := if c then {| s_open := false |} else connect s;
        state := VNCSERVER_INITIALIZED;
        updfree := {| head := Some 0%nat; tail := Some (n - 1)%nat |};
        updqueue := {| head := None; tail := None |};
        updpool := reset_pool n (updpool s);
        freesem := Z.of_nat n;
        queuesem := 0;
        fb := fb0 |},
     [EvResetSession] ++
     (if c then [EvClose Connect; EvClose Listen] else []) ++
     [EvSemReset FreeSem (Z.of_nat n); EvSemReset QueueSem 0]).
Proof.
  unfold vnc_reset_session, reset_pool.
  destruct (state_rank VNCSERVER_CONNECTED <=? state_rank (state s));
    simpl; by destruct (link_loop _ _ _).
Qed.

(** Applying the loop and the final store to a pool that they have already
    been applied to changes nothing. *)
Lemma reset_pool_idempotent (n : nat) (pool : list upd_ptr) :
  (1 <= n)%nat -> length pool = n ->
  reset_pool n (reset_pool n pool) = reset_pool n pool.
Proof.
  intros Hn Hlen.
  destruct (decide (n = 1%nat)) as [->|Hne].
  { unfold reset_pool, for_range. simpl. apply list_insert_insert_eq. }
  assert (H2 : (2 <= n)%nat) by lia.
  pose proof (length_reset_pool n pool) as Hlen'. rewrite Hlen in Hlen'.
  destruct (reset_pool_links n pool H2 Hlen) as (_ & Hin & Hend & Hlast).
  destruct (reset_pool_links n (reset_pool n pool) H2 Hlen')
    as (_ & Hin' & Hend' & Hlast').
  fold (reset_pool n pool) in Hin, Hend, Hlast.
  fold (reset_pool n (reset_pool n pool)) in Hin', Hend', Hlast'.
  apply list_eq. intros j.
  destruct (decide (j < n - 2)%nat); [by rewrite Hin, Hin'|].
  destruct (decide (j = n - 2)%nat) as [->|]; [by rewrite Hend, Hend'|].
  destruct (decide (j = n - 1)%nat) as [->|]; [by rewrite Hlast'|].
  rewrite !lookup_ge_None_2; [done|rewrite Hlen'; lia|].
  rewrite length_reset_pool, Hlen'. lia.
Qed.

(** X3.  [vnc_reset_session] is idempotent: on a session that a reset has
    produced (pool of [N >= 1] descriptors), a second reset with the same
    framebuffer gives the same session, and it closes no socket: its only
    calls are the two [sem_reset]. *)
Theorem vnc_reset_session_idempotent (cfg : vnc_config) (s : vnc_session_s)
    (fb0 : mem_ptr) :
  let n := CONFIG_VNCSERVER_NUPDATES cfg in
  let s1 := (vnc_reset_session cfg s fb0).1 in
  (1 <= n)%nat ->
  length (updpool s) = n ->
  vnc_reset_session cfg s1 fb0 =
    (s1, [EvResetSession; EvSemReset FreeSem (Z.of_nat n);
          EvSemReset QueueSem 0]).
Proof.
  intros n s1 Hn Hlen. subst s1.
  rewrite (vnc_reset_session_eq cfg s fb0). cbv zeta. cbn [fst].
  rewrite vnc_reset_session_eq. cbv zeta. cbn [state updpool listen connect].
  change (state_rank VNCSERVER_CONNECTED <=? state_rank VNCSERVER_INITIALIZED)
    with false. cbv iota.
  fold n. by rewrite reset_pool_idempotent.
Qed.

(** The theorem at three descriptors, from a session in state CONNECTED
    with open sockets and a pool whose links form a cycle. *)
Lemma vnc_reset_session_idempotent_witness :
  let s0 :=
    set_state VNCSERVER_CONNECTED
      (set_listen {| s_open := true |}
         (set_connect {| s_open := true |}
            (set_updpool [Some 2; Some 0; Some 1]%nat (zeroed_session 3)))) in
  let s1 := (vnc_reset_session (sample_config 3 false) s0 None).1 in
  (vnc_reset_session (sample_config 3 false) s1 None).1 = s1.
Proof.
  intros s0 s1.
  exact (f_equal fst
           (vnc_reset_session_idempotent (sample_config 3 false) s0 None
              ltac:(simpl; lia) eq_refl)).
Defined.

(** X4.  With [N >= 2] descriptors [vnc_reset_session] never writes the
    link of [updpool[N-1]], the descriptor it makes [updfree.tail]: that
    descriptor keeps the link it had before the reset. *)
Theorem vnc_reset_session_keeps_last_flink (cfg : vnc_config)
    (s : vnc_session_s) (fb0 : mem_ptr) :
  let n := CONFIG_VNCSERVER_NUPDATES cfg in
  let s' := (vnc_reset_session cfg s fb0).1 in
  (2 <= n)%nat ->
  length (updpool s) = n ->
  tail (updfree s') = Some (n - 1)%nat /\
  updpool s' !! (n - 1)%nat = updpool s !! (n - 1)%nat.
Proof.
  intros n s' Hn Hlen. subst s'.
  rewrite vnc_reset_session_eq. cbv zeta. cbn [fst updfree updpool tail].
  split; [done|].
  by destruct (reset_pool_links n (updpool s) Hn Hlen) as (_ & _ & _ & Hlast).
Qed.

(** The theorem at three descriptors: after the reset the tail descriptor
    2 still links to descriptor 1, which is on the free chain. *)
Lemma vnc_reset_session_keeps_last_flink_witness :
  let s0 := set_updpool [Some 2; Some 0; Some 1]%nat (zeroed_session 3) in
  let s' := (vnc_reset_session (sample_config 3 false) s0 None).1 in
  updpool s' !! 2%nat = Some (Some 1%nat) /\
  free_chain 3 s' = Some [0; 1]%nat.
Proof.
  intros s0 s'. split; [|reflexivity].
  exact (proj2 (vnc_reset_session_keeps_last_flink (sample_config 3 false)
                  s0 None ltac:(simpl; lia) eq_refl)).
Defined.

(** ** The loop: sockets between sessions *)

(** A pass started from a session without stray sockets hands a session in
    state INITIALIZED with both sockets closed to [vnc_connect], and ends
    in a session without stray sockets. *)
Lemma pass_keeps_sockets_accounted (cfg : vnc_config) (display : Z)
    (fb0 : mem_ptr) (env : cycle_env) (s : vnc_session_s) (g : globals) :
  no_socket_below_connected s ->
  errno_positive env -> collaborators_keep_connected env ->
  sockets_closed (session_at_connect cfg fb0 s) /\
  state (session_at_connect cfg fb0 s) = VNCSERVER_INITIALIZED /\
  no_socket_below_connected
    (vnc_server_cycle cfg display fb0 env (s, g)).1.1.
Proof.
  intros Hinv Herr (Hneg & Hstart & Hrecv & Hstop).
  assert (Hclosed : sockets_closed (session_at_connect cfg fb0 s)).
  { pose proof (vnc_reset_session_sockets cfg s fb0) as Hsock.
    cbv zeta in Hsock. unfold session_at_connect, sockets_closed.
    destruct (Z.leb_spec (state_rank VNCSERVER_CONNECTED)
                (state_rank (state s))); [done|].
    destruct Hsock as [-> ->]. by apply Hinv. }
  assert (Hinit : state (session_at_connect cfg fb0 s) = VNCSERVER_INITIALIZED)
    by (by destruct (vnc_reset_session_fields cfg s fb0) as (? & _)).
  split; [done|]. split; [done|].
  rewrite vnc_server_cycle_session. cbv zeta.
  set (s1 := session_at_connect cfg fb0 s) in *.
  set (port := RFB_DISPLAY_PORT cfg display).
  destruct (vnc_connect_ret_sign env s1 port Herr) as [[Hok Hret]|[Hnot Hret]].
  - rewrite Hret. change (0 <=? OK) with true. cbv iota.
    assert (Hc : state_rank VNCSERVER_CONNECTED <=
                 state_rank (state (vnc_connect env s1 port).1.2)).
    { destruct (vnc_connect_outcome env s1 port)
        as [(_ & _ & -> & _)|[(Hs & _)|(_ & Hnot & _)]]; [done| |done].
      unfold all_calls_succeed in Hok. lia. }
    unfold no_socket_below_connected.
    destruct (cr_ret (env_negotiate env) <? 0).
    { intros Hlow. apply Hneg in Hc. lia. }
    destruct (cr_ret (env_start_updater env) <? 0).
    { intros Hlow. apply Hneg, Hstart in Hc. lia. }
    intros Hlow. apply Hneg, Hstart, Hrecv, Hstop in Hc. lia.
  - destruct (Z.leb_spec 0 (vnc_connect env s1 port).1.1); [lia|].
    intros _. unfold sockets_closed.
    destruct (vnc_connect_outcome env s1 port)
      as [(Hok & _)|[(_ & ->)|(_ & _ & _ & _ & -> & -> & _)]];
      [done|done|]. split; [done|apply Hclosed].
Qed.

(** X5.  No socket is open between sessions.  Start the loop from a session
    that holds no open socket while below CONNECTED (as the zero-filled
    one), in an environment where failing socket calls leave a positive
    errno and the collaborators do not take the session back below
    CONNECTED.  Then after any number of passes the session again holds no
    open socket while below CONNECTED, and the session that the next pass
    hands to [vnc_connect] is in state INITIALIZED with the listening and
    the connected socket closed: [vnc_connect] never creates a socket over
    an open one. *)
Theorem no_socket_open_between_sessions (cfg : vnc_config) (display : Z)
    (fb0 : mem_ptr) (script : list cycle_env) (s : vnc_session_s)
    (g : globals) :
  let s' := (vnc_server_loop cfg display fb0 script (s, g)).1.1 in
  no_socket_below_connected s ->
  Forall (fun env => errno_positive env /\ collaborators_keep_connected env)
    script ->
  no_socket_below_connected s' /\
  sockets_closed (session_at_connect cfg fb0 s') /\
  state (session_at_connect cfg fb0 s') = VNCSERVER_INITIALIZED.
Proof.
  intros s' Hinv Hscript. subst s'.
  assert (Hloop : no_socket_below_connected
            (vnc_server_loop cfg display fb0 script (s, g)).1.1).
  { revert s g Hinv.
    induction Hscript as [|env script [Herr Hcol] _ IH]; intros s g Hinv;
      [done|].
    rewrite vnc_server_loop_cons. cbv zeta. cbn [fst].
    destruct (pass_keeps_sockets_accounted cfg display fb0 env s g
                Hinv Herr Hcol) as (_ & _ & Hnext).
    destruct (vnc_server_cycle cfg display fb0 env (s, g)) as [[s1 g1] ev1].
    by apply IH. }
  split; [exact Hloop|].
  set (s' := (vnc_server_loop cfg display fb0 script (s, g)).1.1) in *.
  pose proof (vnc_reset_session_sockets cfg s' fb0) as Hsock.
  cbv zeta in Hsock. unfold session_at_connect, sockets_closed.
  split; [|by destruct (vnc_reset_session_fields cfg s' fb0) as (? & _)].
  destruct (Z.leb_spec (state_rank VNCSERVER_CONNECTED)
              (state_rank (state s'))); [done|].
  destruct Hsock as [-> ->]. by apply Hloop.
Qed.

Lemma collab_ret_keeps_connected (r : Z) : keeps_connected (collab_ret r).
Proof. by intros s Hs. Qed.

(** The theorem for the zero-filled session over a pass in which
    [psock_bind] fails, one in which [vnc_negotiate] fails and a complete
    session. *)
Lemma no_socket_open_between_sessions_witness :
  sockets_closed
    (session_at_connect (sample_config 2 false) None
       (vnc_server_loop (sample_config 2 false) 0 None
          [env_bind_fails; env_negotiate_fails; env_all_ok]
          (zeroed_session 2, globals_at_boot)).1.1).
Proof.
  refine (proj1 (proj2
    (no_socket_open_between_sessions (sample_config 2 false) 0 None
       [env_bind_fails; env_negotiate_fails; env_all_ok] (zeroed_session 2)
       globals_at_boot _ _))).
  - by intros _.
  - repeat constructor; try apply collab_ret_keeps_connected;
      intros c Hc Hlt; rewrite !elem_of_cons in Hc;
      destruct Hc as [->|[->|[->|[->|Hc]]]]; simpl in *; try lia;
      by apply elem_of_nil in Hc.
Defined.

(** ** The loop: one display only *)




(** ** vnc_server: the ways it ends *)

(** The five ways a run of [vnc_server] ends. *)
Lemma vnc_server_cases (cfg : vnc_config) (atoi : string -> Z)
    (session0 : mem_ptr) (mem : alloc_env) (script : list cycle_env)
    (argc : Z) (argv : list string) (g : globals) :
  let display := atoi (nth 1 argv EmptyString) in
  let r := vnc_server cfg atoi session0 mem script argc argv g in
  let g1 :=
    set_g_vnc_sessions
      (<[Z.to_nat display := alloc_session mem]> (g_vnc_sessions g)) g in
  let l := vnc_server_loop cfg display (alloc_fb mem) script
             (session_at_loop_entry cfg, g1) in
  r = (Asserted, g, []) \/
  r = (Returned EXIT_FAILURE, g, []) \/
  (alloc_fb mem = None /\
   r = (Returned (- ENOMEM), g, [EvAlloc AllocFb None])) \/
  (alloc_fb mem <> None /\ alloc_session mem = None /\
   r = (Returned EXIT_FAILURE, g,
        [EvAlloc AllocFb (alloc_fb mem); EvAlloc AllocSession None;
         EvFree (alloc_fb mem)])) \/
  (0 <= display < RFB_MAX_DISPLAYS cfg /\
   alloc_fb mem <> None /\ alloc_session mem <> None /\
   r = (Serving l.1.1, l.1.2,
        [EvAlloc AllocFb (alloc_fb mem);
         EvAlloc AllocSession (alloc_session mem);
         EvRegister display (alloc_session mem);
         EvSemInit FreeSem (Z.of_nat (CONFIG_VNCSERVER_NUPDATES cfg));
         EvSemInit QueueSem 0] ++ l.2)).
Proof.
  intros display r g1 l. subst r l g1.
  unfold vnc_server. fold display.
  destruct (DEBUGASSERT cfg (bool_decide (session0 <> None)));
    simpl negb; cbv iota; [|by left].
  destruct (argc =? 2); simpl negb; cbv iota; [|by right; left].
  destruct (Z.ltb_spec display 0); simpl orb; cbv iota; [by right; left|].
  destruct (Z.leb_spec (RFB_MAX_DISPLAYS cfg) display); cbv iota;
    [by right; left|].
  destruct (bool_decide_reflect (alloc_fb mem = None)) as [Hfb|Hfb].
  { right. right. left. by rewrite Hfb. }
  destruct (bool_decide_reflect (alloc_session mem = None)) as [Hs|Hs].
  { right. right. right. left. by rewrite Hs. }
  right. right. right. right.
  fold (session_at_loop_entry cfg).
  split; [lia|]. split; [done|]. split; [done|].
  by destruct (vnc_server_loop _ _ _ _ _) as [[s1 g2] ev1].
Qed.

(** X7.  [vnc_server] returns only when start-up fails, and then it has
    changed no global and holds no memory: the value is EXIT_FAILURE or
    [-ENOMEM], never 0.  Either nothing was allocated; or the framebuffer
    allocation failed, which gives [-ENOMEM]; or the framebuffer was
    allocated, the session allocation failed and the framebuffer has been
    freed, which gives EXIT_FAILURE. *)
Theorem vnc_server_return_leaves_nothing_behind (cfg : vnc_config)
    (atoi : string -> Z) (session0 : mem_ptr) (mem : alloc_env)
    (script : list cycle_env) (argc : Z) (argv : list string) (g : globals)
    (z : Z) :
  let r := vnc_server cfg atoi session0 mem script argc argv g in
  r.1.1 = Returned z ->
  r.1.2 = g /\
  z <> 0 /\
  ((z = EXIT_FAILURE /\ r.2 = []) \/
   (z = - ENOMEM /\ alloc_fb mem = None /\ r.2 = [EvAlloc AllocFb None]) \/
   (z = EXIT_FAILURE /\ alloc_fb mem <> None /\ alloc_session mem = None /\
    r.2 = [EvAlloc AllocFb (alloc_fb mem); EvAlloc AllocSession None;
           EvFree (alloc_fb mem)])).
Proof.
  intros r Hret. subst r.
  destruct (vnc_server_cases cfg atoi session0 mem script argc argv g)
    as [Hr|[Hr|[[Hfb Hr]|[(Hfb & Hs & Hr)|(_ & _ & _ & Hr)]]]];
    rewrite Hr in Hret |- *; cbn [fst snd] in *; try discriminate;
    injection Hret as <-.
  - split; [done|]. split; [done|]. by left.
  - split; [done|]. split; [done|]. right. by left.
  - split; [done|]. split; [done|]. right. by right.
Qed.

(** The theorem when the session allocation fails: the framebuffer is
    freed and EXIT_FAILURE returned. *)
Lemma vnc_server_return_leaves_nothing_behind_witness :
  let r := vnc_server (sample_config 2 false) libc_atoi None
             {| alloc_fb := Some 1%nat; alloc_session := None |}
             [env_all_ok] 2 ["vnc"; "0"]%string globals_at_boot in
  r.1.2 = globals_at_boot /\
  r.2 = [EvAlloc AllocFb (Some 1%nat); EvAlloc AllocSession None;
         EvFree (Some 1%nat)].
Proof.
  intros r.
  destruct (vnc_server_return_leaves_nothing_behind (sample_config 2 false)
              libc_atoi None
              {| alloc_fb := Some 1%nat; alloc_session := None |}
              [env_all_ok] 2 ["vnc"; "0"]%string globals_at_boot
              EXIT_FAILURE eq_refl) as (Hg & _ & _).
  split; [exact Hg|reflexivity].
Defined.

(** ** vnc_server: the globals of the other displays *)

(** A pass writes [g_fbsem[display]] and nothing else of [g_fbsem]. *)
Lemma pass_fbsem_frame (cfg : vnc_config) (display : Z) (fb0 : mem_ptr)
    (env : cycle_env) (s : vnc_session_s) (g : globals) :
  let g' := (vnc_server_cycle cfg display fb0 env (s, g)).1.2 in
  length (g_fbsem g') = length (g_fbsem g) /\
  forall j, j <> Z.to_nat display -> g_fbsem g' !! j = g_fbsem g !! j.
Proof.
  intros g'. subst g'. rewrite vnc_server_cycle_globals. cbv zeta.
  destruct (_ && _); cbn [g_fbsem set_g_fbsem].
  - rewrite length_alter, length_insert. split; [done|]. intros j Hj.
    rewrite list_lookup_alter_ne by done. by apply list_lookup_insert_ne.
  - rewrite length_insert. split; [done|]. intros j Hj.
    by apply list_lookup_insert_ne.
Qed.

Lemma vnc_server_loop_fbsem_frame (cfg : vnc_config) (display : Z)
    (fb0 : mem_ptr) (script : list cycle_env) :
  forall (s : vnc_session_s) (g : globals),
    let g' := (vnc_server_loop cfg display fb0 script (s, g)).1.2 in
    length (g_fbsem g') = length (g_fbsem g) /\
    forall j, j <> Z.to_nat display -> g_fbsem g' !! j = g_fbsem g !! j.
Proof.
  induction script as [|env script IH]; intros s g; [done|].
  cbv zeta. rewrite vnc_server_loop_cons. cbv zeta. cbn [fst].
  destruct (pass_fbsem_frame cfg display fb0 env s g) as [Hlen Hj].
  destruct (vnc_server_cycle cfg display fb0 env (s, g)) as [[s1 g1] ev1].
  cbn [fst snd] in *.
  destruct (IH s1 g1) as [Hlen' Hj']. split; [congruence|].
  intros j Hne. by rewrite Hj', Hj.
Qed.

(** X8.  A run of [vnc_server] for one display leaves the other displays
    alone: the two global arrays keep their lengths, and for every other
    display index the entry of [g_vnc_sessions], the count of [g_fbsem] and
    what [vnc_find_session] gives are as before the run, however the run
    ends and however many passes the loop has made. *)
Theorem vnc_server_leaves_other_displays (cfg : vnc_config)
    (atoi : string -> Z) (session0 : mem_ptr) (mem : alloc_env)
    (script : list cycle_env) (argc : Z) (argv : list string) (g : globals) :
  let display := atoi (nth 1 argv EmptyString) in
  let g' := (vnc_server cfg atoi session0 mem script argc argv g).1.2 in
  length (g_vnc_sessions g') = length (g_vnc_sessions g) /\
  length (g_fbsem g') = length (g_fbsem g) /\
  (forall d, 0 <= d -> d <> display ->
     registry_entry g' d = registry_entry g d /\
     g_fbsem g' !! Z.to_nat d = g_fbsem g !! Z.to_nat d /\
     (vnc_find_session cfg d g').1 = (vnc_find_session cfg d g).1).
Proof.
  intros display g'. subst g'.
  assert (Hfind : forall d g1 g2,
    registry_entry g1 d = registry_entry g2 d ->
    (vnc_find_session cfg d g1).1 = (vnc_find_session cfg d g2).1).
  { intros d g1 g2 Heq. unfold vnc_find_session. rewrite Heq.
    by destruct (negb _). }
  destruct (vnc_server_cases cfg atoi session0 mem script argc argv g)
    as [Hr|[Hr|[[_ Hr]|[(_ & _ & Hr)|(Hrange & _ & _ & Hr)]]]];
    rewrite Hr; cbn [fst snd]; try (by repeat split; try apply Hfind).
  fold display in Hrange |- *.
  set (g1 := set_g_vnc_sessions
               (<[Z.to_nat display := alloc_session mem]> (g_vnc_sessions g))
               g).
  pose proof (vnc_server_loop_registry cfg display (alloc_fb mem) script
                (session_at_loop_entry cfg) g1) as Hreg.
  destruct (vnc_server_loop_fbsem_frame cfg display (alloc_fb mem) script
              (session_at_loop_entry cfg) g1) as [Hlen Hsem].
  split; [by rewrite Hreg; simpl; rewrite length_insert|].
  split; [exact Hlen|].
  intros d Hd Hne.
  assert (Hidx : Z.to_nat d <> Z.to_nat display) by lia.
  assert (Hentry :
    registry_entry
      (vnc_server_loop cfg display (alloc_fb mem) script
         (session_at_loop_entry cfg, g1)).1.2 d = registry_entry g d).
  { unfold registry_entry. rewrite Hreg. simpl.
    by rewrite list_lookup_insert_ne. }
  split; [exact Hentry|]. split; [by apply Hsem|by apply Hfind].
Qed.

(** ** vnc_server and vnc_find_session together *)

(** The lookup after a server has started, on a two-display build: display
    1 is served, [vnc_find_session (1)] gives its session. *)
Lemma vnc_find_session_after_vnc_server_witness :
  let cfg := {| CONFIG_VNCSERVER_NUPDATES := 2; RFB_MAX_DISPLAYS := 2;
                RFB_DISPLAY_PORT := fun d => 5900 + d;
                CONFIG_DEBUG := true |} in
  let g := {| g_vnc_sessions := [None; None]; g_fbsem := [0; 0] |} in
  let r := vnc_server cfg libc_atoi (Some 7%nat) mem_ok
             [env_negotiate_fails; env_all_ok] 2 ["vnc"; "1"]%string g in
  (vnc_find_session cfg 1 r.1.2).1 = LookupReturned (Some 2%nat).
Proof.
  intros cfg g r.
  refine (vnc_find_session_after_vnc_server cfg libc_atoi (Some 7%nat) mem_ok
            [env_negotiate_fails; env_all_ok] ["vnc"; "1"]%string g
            eq_refl _ _ _ _).
  - by vm_compute.
  - vm_compute. lia.
  - discriminate.
  - discriminate.
Defined.
